(** * ShortPositionUpdater: a shallow embedding of [ShortPositionAnalyzer]

    The Python class of [src/ShortPositionUpdater.py] is embedded method by
    method.  Python objects with mutable attributes become finite maps, the
    effects of a method (attribute writes, prints, HTTP requests, file writes,
    identifier draws) are threaded through a state-and-exception monad, and
    the third-party calls whose results come from outside the program
    (the network, the spreadsheet parser, the sentence encoder) are read from
    an environment record. *)

From Stdlib Require Import Floats.PrimFloat.
From stdpp Require Import gmap strings list sorting pretty.

Set Warnings "-register-all,-abstract-large-number".

Local Open Scope Z_scope.

(** ** Python values, exceptions, results *)

(** Values that come out of [yaml.safe_load] and [response.json()].  A
    [PDict] lists the items of a Python dict in insertion order; its keys are
    pairwise distinct, so a lookup is the first match. *)
Inductive pyval : Type :=
| PNone
| PBool (b : bool)
| PInt (z : Z)
| PFloat (f : float)
| PStr (s : string)
| PList (l : list pyval)
| PDict (d : list (string * pyval)).

(** The exception classes the program can meet.  [RequestException] stands for
    [requests.exceptions.RequestException] and all its subclasses
    ([ConnectionError], [HTTPError], [Timeout], [MissingSchema], ...); the
    first argument names the subclass, the second is [str(e)]. *)
Inductive exn : Type :=
| RequestException (cls msg : string)
| AttributeError (name : string)
| UnboundLocalError (name : string)
| KeyError (key : string)
| TypeError (msg : string)
| ValueError (msg : string)
| OSError (msg : string).

#[global] Instance exn_eq_dec : EqDecision exn.
Proof. solve_decision. Defined.

(** [isinstance(e, requests.exceptions.RequestException)] *)
Definition is_request_exception (e : exn) : bool :=
  match e with RequestException _ _ => true | _ => false end.

(** [str(e)] *)
Definition exn_str (e : exn) : string :=
  match e with
  | RequestException _ msg => msg
  | AttributeError name => "object has no attribute '" +:+ name +:+ "'"
  | UnboundLocalError name =>
      "cannot access local variable '" +:+ name +:+
      "' where it is not associated with a value"
  | KeyError key => "'" +:+ key +:+ "'"
  | TypeError msg | ValueError msg | OSError msg => msg
  end.

Inductive result (A : Type) : Type :=
| Ok (a : A)
| Raise (e : exn).
Arguments Ok {A} a.
Arguments Raise {A} e.

(** ** The state-and-exception monad

    A computation reads and writes a state [Σ] and either returns a value or
    raises.  The state reached when an exception is raised is kept: what a
    Python method has mutated before it raises stays mutated. *)
Definition M (Σ A : Type) : Type := Σ → Σ * result A.

Definition ret {Σ A} (a : A) : M Σ A := λ σ, (σ, Ok a).

Definition raise {Σ A} (e : exn) : M Σ A := λ σ, (σ, Raise e).

Definition bind {Σ A B} (m : M Σ A) (k : A → M Σ B) : M Σ B :=
  λ σ, match m σ with
       | (σ', Ok a) => k a σ'
       | (σ', Raise e) => (σ', Raise e)
       end.

Notation "x <- m ;; k" := (bind m (λ x, k))
  (at level 100, m at next level, right associativity, only parsing).
Notation "m ;;; k" := (bind m (λ _, k))
  (at level 100, right associativity, only parsing).

(** A pure step that may raise. *)
Definition lift {Σ A} (r : result A) : M Σ A := λ σ, (σ, r).

(** [try: m except <class>: h] *)
Definition try_except {Σ A} (m : M Σ A) (catches : exn → bool)
    (h : exn → M Σ A) : M Σ A :=
  λ σ, match m σ with
       | (σ', Ok a) => (σ', Ok a)
       | (σ', Raise e) => if catches e then h e σ' else (σ', Raise e)
       end.

(** [for x in l: body x] *)
Fixpoint for_each {Σ A} (l : list A) (body : A → M Σ unit) : M Σ unit :=
  match l with
  | [] => ret tt
  | x :: l' => body x ;;; for_each l' body
  end.

(** [[f x for x in l]] *)
Fixpoint list_comp {Σ A B} (l : list A) (f : A → M Σ B) : M Σ (list B) :=
  match l with
  | [] => ret []
  | x :: l' => y <- f x ;; ys <- list_comp l' f ;; ret (y :: ys)
  end.

(** ** Dates and the two position tables *)

(** A naive [datetime.datetime] (no time zone). *)
Record datetime : Type := mk_datetime {
  year : Z; month : Z; day : Z;
  hour : Z; minute : Z; second : Z; microsecond : Z }.

#[global] Instance datetime_eq_dec : EqDecision datetime.
Proof. solve_decision. Defined.

(** One row of the sheets [' Correnti - Current '] and
    [' Storiche - Historic '], with the five columns the program looks up.
    A field is [None] where the cell is empty (pandas' NaN / NaT). *)
Record position_row : Type := mk_row {
  position_holder : option string;     (* 'Position Holder' *)
  net_short_position : option float;   (* 'Net Short Position (%)' *)
  position_date : option datetime;     (* 'Position Date' *)
  share_issuer : option string;        (* 'Share Issuer' *)
  isin : option string }.              (* 'ISIN' *)

(** A DataFrame of positions: its rows, in order. *)
Abbreviation table := (list position_row).

(** One row of [short_positions_by_asset]. *)
Record asset_aggregate : Type := mk_aggregate {
  agg_isin : string;
  agg_holders : list (option string);
  agg_percentages : list (option float);
  agg_issuer : option string }.

(** [series == d]: the boolean mask, one entry per cell.  A missing date
    compares unequal to everything. *)
Definition series_eq (series : list (option datetime)) (d : datetime)
    : list bool :=
  (λ c, bool_decide (c = Some d)) <$> series.

(** [df[mask]]: the rows whose mask entry is [True], in order. *)
Definition getitem_mask (df : table) (mask : list bool) : table :=
  omap (λ p : position_row * bool, if p.2 then Some p.1 else None)
       (zip df mask).

(** The group keys of [df.groupby('ISIN')]: the distinct non-missing ISINs
    (groupby drops missing keys), sorted (groupby sorts its keys). *)
Definition string_le (a b : string) : Prop := String.leb a b = true.

#[global] Instance string_le_dec : RelDecision string_le.
Proof. intros a b. unfold string_le. apply _. Defined.

Definition group_keys (df : table) : list string :=
  merge_sort string_le (remove_dups (omap isin df)).

(** The rows of one group, in input order. *)
Definition group_rows (df : table) (key : string) : table :=
  filter (λ r, isin r = Some key) df.

(** The aggregation ['first']: the first non-missing entry of the column. *)
Definition agg_first {A} (column : list (option A)) : option A :=
  head (omap id column).

(** What [.agg({'Position Holder': list, 'Net Short Position (%)': list,
    'Share Issuer': 'first'})] makes of one group. *)
Definition aggregate_group (df : table) (key : string) : asset_aggregate :=
  let rows := group_rows df key in
  {| agg_isin := key;
     agg_holders := position_holder <$> rows;
     agg_percentages := net_short_position <$> rows;
     agg_issuer := agg_first (share_issuer <$> rows) |}.

(** [df.groupby('ISIN').agg({...}).reset_index()]: one row per group, in the
    order of the keys. *)
Definition groupby_isin_agg (df : table) : list asset_aggregate :=
  aggregate_group df <$> group_keys df.

(** ** The vector store ([QdrantClient(":memory:")]) *)

(** [models.Distance] *)
Inductive distance : Type := COSINE | EUCLID | DOT | MANHATTAN.

(** [models.PointStruct] *)
Record point : Type := mk_point {
  point_id : string;
  point_vector : list float;
  point_payload : pyval }.

(** A collection: its [VectorParams] and its points, oldest first. *)
Record collection : Type := mk_collection {
  vectors_size : nat;
  vectors_distance : distance;
  points : list point }.

(** [models.ScoredPoint], as [search] returns it with [with_payload=True]. *)
Record scored_point : Type := mk_scored {
  scored_id : string;
  score : float;
  payload : pyval }.

(** [upsert] of one point: a point with the same id is replaced where it
    stands, a new id is appended. *)
Fixpoint upsert_point (p : point) (ps : list point) : list point :=
  match ps with
  | [] => [p]
  | q :: ps' =>
      if decide (point_id q = point_id p) then p :: ps'
      else q :: upsert_point p ps'
  end.

(** The scores of the four distances, in binary64.  The store computes them
    on its own arrays; what the program relies on is the ranking. *)
Definition dot_product (a b : list float) : float :=
  foldr (λ xy acc, (xy.1 * xy.2 + acc)%float) 0%float (zip a b).

Definition cosine_similarity (a b : list float) : float :=
  (dot_product a b / (sqrt (dot_product a a) * sqrt (dot_product b b)))%float.

Definition euclid_distance (a b : list float) : float :=
  sqrt (foldr (λ xy acc, ((xy.1 - xy.2) * (xy.1 - xy.2) + acc)%float)
              0%float (zip a b)).

Definition manhattan_distance (a b : list float) : float :=
  foldr (λ xy acc, (abs (xy.1 - xy.2) + acc)%float) 0%float (zip a b).

Definition distance_score (d : distance) (query v : list float) : float :=
  match d with
  | COSINE => cosine_similarity query v
  | DOT => dot_product query v
  | EUCLID => euclid_distance query v
  | MANHATTAN => manhattan_distance query v
  end.

(** [before d s1 s2]: a point scored [s1] is ranked strictly before one
    scored [s2] (similarities rank high scores first, distances low ones). *)
Definition before (d : distance) (s1 s2 : float) : bool :=
  match d with
  | COSINE | DOT => ltb s2 s1
  | EUCLID | MANHATTAN => ltb s1 s2
  end.

Fixpoint rank_insert (d : distance) (x : scored_point)
    (l : list scored_point) : list scored_point :=
  match l with
  | [] => [x]
  | y :: l' =>
      if before d (score x) (score y) then x :: l
      else y :: rank_insert d x l'
  end.

Definition rank (d : distance) (l : list scored_point) : list scored_point :=
  foldr (rank_insert d) [] l.

(** [search(query_vector, limit, with_payload=True)] on one collection. *)
Definition search_collection (c : collection) (query : list float)
    (limit : nat) : list scored_point :=
  take limit
    (rank (vectors_distance c)
       ((λ p, {| scored_id := point_id p;
                 score := distance_score (vectors_distance c) query
                            (point_vector p);
                 payload := point_payload p |}) <$> points c)).

(** ** The analyzer object and the process around it *)

(** The values an attribute of [self] can hold. *)
Inductive attr : Type :=
| AVal (v : pyval)
| ADate (d : datetime)
| AClient (q : gmap string collection)
| AEncoder (model : string)
| ADistance (d : distance)
| AMethod (name : string).

(** An HTTP request the process has issued. *)
Inductive request : Type :=
| GET (url : pyval)
| POST (url : pyval) (authorization : string) (inputs : string).

Definition is_post (r : request) : bool :=
  match r with POST _ _ _ => true | GET _ => false end.

(** [self.__dict__], standard output, the files written, the requests sent
    and the number of identifiers drawn so far. *)
Record world : Type := mk_world {
  self_dict : gmap string attr;
  stdout : list string;
  filesystem : gmap string (list Byte.byte);
  sent : list request;
  uuid_draws : nat }.

(** [requests.Response] *)
Record response : Type := mk_response {
  status_code : Z;
  reason : string;
  response_url : string;
  content : result (list Byte.byte);   (* read on first access: may raise *)
  json : result pyval }.

(** What the program receives from outside: the files it opens, the clock,
    the network, the spreadsheet parser, the encoder, the random source. *)
Record env : Type := mk_env {
  yaml_safe_load : string → result pyval;
  strftime_now : string;                   (* now().strftime("%d-%m-%y") *)
  requests_get : pyval → result response;
  requests_post : pyval → string → string → result response;
  read_excel_positions : list Byte.byte → string → result table;
  read_excel_date_cell : list Byte.byte → string → result pyval;
  strptime : pyval → result datetime;      (* format "%d/%m/%Y" *)
  open_wb : string → option exn;
  str_format : string → string → result string;
  py_repr : pyval → string;
  sentence_transformer : string → result string;   (* loads the model *)
  encoder_encode : pyval → result (list float);
  embedding_dimension : nat;
  uuid4 : nat → string;
  show_table : table → string;
  show_aggregate : list asset_aggregate → string }.

(** The names the class itself defines. *)
Definition class_dict : list string :=
  ["__init__"; "download_file"; "analyze_positions"; "retrieve_news";
   "embed_and_store_news"; "retrieve_news_with_rag"; "display_results";
   "execute"].

(** [self.name]: the instance dictionary first, then the class. *)
Definition getattr (name : string) : M world attr :=
  λ w, match self_dict w !! name with
       | Some a => (w, Ok a)
       | None =>
           if decide (name ∈ class_dict) then (w, Ok (AMethod name))
           else (w, Raise (AttributeError name))
       end.

(** [self.name = a] *)
Definition setattr (name : string) (a : attr) : M world unit :=
  λ w, (mk_world (<[name := a]> (self_dict w)) (stdout w) (filesystem w)
          (sent w) (uuid_draws w), Ok tt).

(** [print(line)] *)
Definition print (line : string) : M world unit :=
  λ w, (mk_world (self_dict w) (stdout w ++ [line]) (filesystem w)
          (sent w) (uuid_draws w), Ok tt).

Definition send (r : request) : M world unit :=
  λ w, (mk_world (self_dict w) (stdout w) (filesystem w)
          (sent w ++ [r]) (uuid_draws w), Ok tt).

Definition write_file (path : string) (f : list Byte.byte → list Byte.byte)
    : M world unit :=
  λ w, (mk_world (self_dict w) (stdout w)
          (<[path := f (default [] (filesystem w !! path))]> (filesystem w))
          (sent w) (uuid_draws w), Ok tt).

Definition draw_uuid : M world nat :=
  λ w, (mk_world (self_dict w) (stdout w) (filesystem w) (sent w)
          (S (uuid_draws w)), Ok (uuid_draws w)).

(** [str(v)], as an f-string formats a value. *)
Definition py_str (repr : pyval → string) (v : pyval) : string :=
  match v with
  | PStr s => s
  | PNone => "None"
  | PBool true => "True"
  | PBool false => "False"
  | PInt z => pretty z
  | _ => repr v
  end.

(** [d.get(key)] and [d[key]] on the items of a dict. *)
Fixpoint dict_lookup (d : list (string * pyval)) (key : string)
    : option pyval :=
  match d with
  | [] => None
  | (k, v) :: d' => if decide (k = key) then Some v else dict_lookup d' key
  end.

(** [v.get(key, default)]: only a dict has [get]. *)
Definition py_get (v : pyval) (key : string) (default : pyval)
    : result pyval :=
  match v with
  | PDict d => Ok (match dict_lookup d key with Some x => x | None => default end)
  | _ => Raise (AttributeError "get")
  end.

(** [item[key]] with a string key. *)
Definition py_getitem (v : pyval) (key : string) : result pyval :=
  match v with
  | PDict d =>
      match dict_lookup d key with
      | Some x => Ok x
      | None => Raise (KeyError key)
      end
  | PStr _ => Raise (TypeError "string indices must be integers")
  | PList _ => Raise (TypeError "list indices must be integers or slices")
  | _ => Raise (TypeError "object is not subscriptable")
  end.

Fixpoint chars (s : string) : list pyval :=
  match s with
  | EmptyString => []
  | String c s' => PStr (String c EmptyString) :: chars s'
  end.

(** [iter(v)], as a [for] clause walks a value. *)
Definition py_iter (v : pyval) : result (list pyval) :=
  match v with
  | PList l => Ok l
  | PDict d => Ok ((λ kv, PStr kv.1) <$> d)
  | PStr s => Ok (chars s)
  | _ => Raise (TypeError "object is not iterable")
  end.

Fixpoint ends_with_slash (s : string) : bool :=
  match s with
  | EmptyString => false
  | String c EmptyString => bool_decide (String c EmptyString = "/")
  | String _ s' => ends_with_slash s'
  end.

(** [os.path.join(a, b)] (POSIX) *)
Definition os_path_join (a b : string) : string :=
  if String.prefix "/" b then b
  else if bool_decide (a = "") || ends_with_slash a then a +:+ b
  else a +:+ "/" +:+ b.

Fixpoint chunks_upto (fuel n : nat) (bytes : list Byte.byte)
    : list (list Byte.byte) :=
  match fuel, bytes with
  | O, _ | _, [] => []
  | S fuel', _ => take n bytes :: chunks_upto fuel' n (drop n bytes)
  end.

(** [response.iter_content(chunk_size=n)] once the content has been read. *)
Definition iter_content (n : nat) (bytes : list Byte.byte)
    : list (list Byte.byte) :=
  chunks_upto (length bytes) n bytes.

(** [response.raise_for_status()] *)
Definition raise_for_status (r : response) : result unit :=
  if bool_decide (400 ≤ status_code r < 500) then
    Raise (RequestException "HTTPError"
             (pretty (status_code r) +:+ " Client Error: " +:+ reason r
                +:+ " for url: " +:+ response_url r))
  else if bool_decide (500 ≤ status_code r < 600) then
    Raise (RequestException "HTTPError"
             (pretty (status_code r) +:+ " Server Error: " +:+ reason r
                +:+ " for url: " +:+ response_url r))
  else Ok tt.

(** The local variables of [download_file] that are read after its [try]
    statement.  [None] is an unbound name. *)
Record locals : Type := mk_locals {
  current_var : option table;
  historical_var : option table }.

(** A method body runs on its frame and the world. *)
Definition on_world {F A} (m : M world A) : M (F * world) A :=
  λ fw, let '(w', r) := m fw.2 in ((fw.1, w'), r).

Definition store {F} (upd : F → F) : M (F * world) unit :=
  λ fw, ((upd fw.1, fw.2), Ok tt).

(** Reading a local variable. *)
Definition load {F A} (name : string) (var : F → option A)
    : M (F * world) A :=
  λ fw, match var fw.1 with
        | Some a => (fw, Ok a)
        | None => (fw, Raise (UnboundLocalError name))
        end.

(** A call: a fresh frame, dropped when the body is done. *)
Definition call {F A} (frame : F) (body : M (F * world) A) : M world A :=
  λ w, let '(fw, r) := body (frame, w) in (fw.2, r).

(** What the program expects an attribute to hold. *)
Definition as_client (method : string) (a : attr)
    : result (gmap string collection) :=
  match a with
  | AClient q => Ok q
  | _ => Raise (AttributeError method)
  end.

Definition as_str (a : attr) : result string :=
  match a with
  | AVal (PStr s) => Ok s
  | _ => Raise (TypeError "expected str")
  end.

Definition as_pyval (a : attr) : result pyval :=
  match a with
  | AVal v => Ok v
  | _ => Raise (TypeError "expected a plain value")
  end.

Definition as_distance (a : attr) : result distance :=
  match a with
  | ADistance d => Ok d
  | _ => Raise (TypeError "expected Distance")
  end.

Definition as_encoder (method : string) (a : attr) : result string :=
  match a with
  | AEncoder model => Ok model
  | _ => Raise (AttributeError method)
  end.

Definition as_template (a : attr) : result string :=
  match a with
  | AVal (PStr s) => Ok s
  | _ => Raise (AttributeError "format")
  end.

Definition newline : string := String (Ascii.ascii_of_nat 10) EmptyString.

(** [series == self.pubblication_date] for whatever the attribute holds:
    only a datetime can equal a date cell. *)
Definition date_mask (df : table) (a : attr) : list bool :=
  match a with
  | ADate d => series_eq (position_date <$> df) d
  | _ => (λ _, false) <$> df
  end.

(** [(item['title'], item['url'])], the body of the comprehension of
    line 96. *)
Definition title_and_url (item : pyval) : M world (pyval * pyval) :=
  title <- lift (py_getitem item "title") ;;
  url <- lift (py_getitem item "url") ;;
  ret (title, url).

(** [{"title": title, "url": url}], the payload of the point of an
    article. *)
Definition article_payload (article : pyval * pyval) : pyval :=
  PDict [("title", article.1); ("url", article.2)].

(** A freshly allocated object: no attribute, nothing printed, written,
    sent or drawn yet. *)
Definition fresh_world : world := mk_world ∅ [] ∅ [] 0.

(** ** The methods of [ShortPositionAnalyzer] *)

Section Analyzer.
Context (E : env).

Definition __init__ (config_path secrets_path : string) : M world unit :=
  config <- lift (yaml_safe_load E config_path) ;;
  secrets <- lift (yaml_safe_load E secrets_path) ;;
  url <- lift (py_get config "url" PNone) ;;
  setattr "url" (AVal url) ;;;
  destfile <- lift (py_get config "destfile" PNone) ;;
  setattr "destfile" (AVal destfile) ;;;
  news_endpoint <- lift (py_get config "news_endpoint" PNone) ;;
  setattr "news_endpoint" (AVal news_endpoint) ;;;
  news_api_key <- lift (py_get secrets "news_api_key" PNone) ;;
  setattr "news_api_key" (AVal news_api_key) ;;;
  token <- lift (py_get secrets "hugging_face_user_token" PNone) ;;
  setattr "hugging_face_token" (AVal token) ;;;
  setattr "qdrant" (AClient ∅) ;;;
  setattr "COLLECTION_NAME" (AVal (PStr "Press news")) ;;;
  setattr "DISTANCE" (ADistance COSINE) ;;;
  model <- lift (sentence_transformer E
                   "sentence-transformers/all-MiniLM-L6-v2") ;;
  setattr "encoder" (AEncoder model).

(** Lines 53-68: the [try] statement of [download_file]. *)
Definition download_try (filename : string) : M (locals * world) unit :=
  try_except
    (url <- on_world (a <- getattr "url" ;; lift (as_pyval a)) ;;
     on_world (send (GET url)) ;;;
     response <- lift (requests_get E url) ;;
     lift (raise_for_status response) ;;;
     bytes <- lift (content response) ;;
     current <- lift (read_excel_positions E bytes " Correnti - Current ") ;;
     store (λ f, mk_locals (Some current) (historical_var f)) ;;;
     historical <-
       lift (read_excel_positions E bytes " Storiche - Historic ") ;;
     store (λ f, mk_locals (current_var f) (Some historical)) ;;;
     date_str <-
       lift (read_excel_date_cell E bytes " Pubb. Data - Pubb. Date ") ;;
     pubblication_date <- lift (strptime E date_str) ;;
     on_world (setattr "pubblication_date" (ADate pubblication_date)) ;;;
     destfile <- on_world (a <- getattr "destfile" ;; lift (as_str a)) ;;
     let path := os_path_join destfile filename in
     match open_wb E path with
     | Some e => raise e
     | None =>
         on_world (write_file path (λ _, [])) ;;;
         for_each (iter_content 8192 bytes)
           (λ chunk, on_world (write_file path (λ old, old ++ chunk))) ;;;
         shown <- on_world (a <- getattr "destfile" ;; lift (as_pyval a)) ;;
         on_world
           (print ("File downloaded successfully and saved to "
                     +:+ py_str (py_repr E) shown))
     end)
    is_request_exception
    (λ e, on_world (print ("An error occurred: " +:+ exn_str e))).

(** Line 69: [return current, historical]. *)
Definition download_return : M (locals * world) (table * table) :=
  current <- load "current" current_var ;;
  historical <- load "historical" historical_var ;;
  ret (current, historical).

Definition download_file : M world (table * table) :=
  call (mk_locals None None)
    (let filename := "pnc_consob_" +:+ strftime_now E +:+ ".xlsx" in
     download_try filename ;;;
     download_return).

Definition analyze_positions (current historical : table)
    : M world (table * table * list asset_aggregate) :=
  d <- getattr "pubblication_date" ;;
  let new_positions := getitem_mask current (date_mask current d) in
  d' <- getattr "pubblication_date" ;;
  let closed_positions :=
    getitem_mask historical (date_mask historical d') in
  let short_positions_by_asset := groupby_isin_agg current in
  ret (new_positions, closed_positions, short_positions_by_asset).

Definition retrieve_news (company_name : string)
    : M world (list (pyval * pyval)) :=
  template <- (a <- getattr "news_endpoint" ;; lift (as_template a)) ;;
  url <- lift (str_format E template company_name) ;;
  send (GET (PStr url)) ;;;
  response <- lift (requests_get E (PStr url)) ;;
  if bool_decide (status_code response = 200) then
    body <- lift (json response) ;;
    feed <- lift (py_get body "feed" (PList [])) ;;
    items <- lift (py_iter feed) ;;
    list_comp items title_and_url
  else ret [].

(** [self.qdrant.method]: the client whose method is about to be called. *)
Definition self_qdrant (method : string)
    : M world (gmap string collection) :=
  a <- getattr "qdrant" ;; lift (as_client method a).

(** [self.encoder.method] *)
Definition self_encoder (method : string) : M world string :=
  a <- getattr "encoder" ;; lift (as_encoder method a).

Definition self_collection_name : M world string :=
  a <- getattr "COLLECTION_NAME" ;; lift (as_str a).

(** [self.qdrant.create_collection(collection_name, vectors_config)] *)
Definition create_collection (name : M world string)
    (config : M world (nat * distance)) : M world unit :=
  q <- self_qdrant "create_collection" ;;
  n <- name ;;
  c <- config ;;
  match q !! n with
  | Some _ => raise (ValueError ("Collection " +:+ n +:+ " already exists"))
  | None => setattr "qdrant" (AClient (<[n := mk_collection c.1 c.2 []]> q))
  end.

(** [self.qdrant.upsert(collection_name, points=[p])] *)
Definition upsert (name : M world string) (p : point) : M world unit :=
  q <- self_qdrant "upsert" ;;
  n <- name ;;
  match q !! n with
  | None => raise (ValueError ("Collection " +:+ n +:+ " not found"))
  | Some c =>
      setattr "qdrant"
        (AClient (<[n := mk_collection (vectors_size c) (vectors_distance c)
                           (upsert_point p (points c))]> q))
  end.

(** [self.qdrant.search(collection_name, query_vector, limit,
    with_payload=True)] *)
Definition search (name : M world string) (query : list float)
    (limit : nat) : M world (list scored_point) :=
  q <- self_qdrant "search" ;;
  n <- name ;;
  match q !! n with
  | None => raise (ValueError ("Collection " +:+ n +:+ " not found"))
  | Some c => ret (search_collection c query limit)
  end.

(** [self.encoder.encode(text).tolist()] *)
Definition encode (text : pyval) : M world (list float) :=
  self_encoder "encode" ;;;
  lift (encoder_encode E text).

(** Lines 113-122: the body of the loop of [embed_and_store_news], for the
    article [(title, url)]. *)
Definition embed_article (article : pyval * pyval) : M world unit :=
  embedding <- encode article.1 ;;
  i <- draw_uuid ;;
  let unique_id := uuid4 E i in
  upsert self_collection_name
    (mk_point unique_id embedding (article_payload article)).

Definition embed_and_store_news (articles : list (pyval * pyval))
    : M world unit :=
  q <- self_qdrant "collection_exists" ;;
  name <- self_collection_name ;;
  (if bool_decide (is_Some (q !! name)) then ret tt
   else
     create_collection self_collection_name
       (self_encoder "get_sentence_embedding_dimension" ;;;
        d <- (a <- getattr "DISTANCE" ;; lift (as_distance a)) ;;
        ret (embedding_dimension E, d))) ;;;
  for_each articles embed_article.

(** Lines 134-140 of [retrieve_news_with_rag], with the query text as a
    parameter: embed the query, ask for the five nearest points. *)
Definition search_news (query : string) : M world (list scored_point) :=
  query_embedding <- encode (PStr query) ;;
  search self_collection_name query_embedding 5.

(** Lines 131-149 of [retrieve_news_with_rag]: everything up to the
    prompt. *)
Definition rag_prompt (company_name : string) : M world string :=
  articles <- retrieve_news company_name ;;
  embed_and_store_news articles ;;;
  results <- search_news "Short selling" ;;
  titles <-
    list_comp results
      (λ res,
         title <- lift (py_getitem (payload res) "title") ;;
         ret ("Title: " +:+ py_str (py_repr E) title)) ;;
  let article_summaries := String.concat newline titles in
  ret ("Based on the following news articles, provide an explanation on why there might be short positions in "
         +:+ company_name +:+ ":" +:+ newline +:+ newline
         +:+ article_summaries +:+ newline +:+ newline).

(** Lines 151-154: the inference call. *)
Definition rag_inference (prompt : string) : M world response :=
  token <- (a <- getattr "hugging_face_token" ;; lift (as_pyval a)) ;;
  let authorization := "Bearer " +:+ py_str (py_repr E) token in
  endpoint <-
    (a <- getattr "llm_inference_endpoint" ;; lift (as_pyval a)) ;;
  send (POST endpoint authorization prompt) ;;;
  explanation <- lift (requests_post E endpoint authorization prompt) ;;
  ret explanation.

Definition retrieve_news_with_rag (company_name : string)
    : M world response :=
  prompt <- rag_prompt company_name ;;
  rag_inference prompt.

Definition display_results (new_positions closed_positions : table)
    (short_positions_by_asset : list asset_aggregate) : M world unit :=
  print ("New Short Positions:" +:+ newline +:+ " "
           +:+ show_table E new_positions) ;;;
  print (newline +:+ "Closed Short Positions:" +:+ newline +:+ " "
           +:+ show_table E closed_positions) ;;;
  print (newline +:+ "Short Positions by Asset:" +:+ newline +:+ " "
           +:+ show_aggregate E short_positions_by_asset).

Definition execute : M world unit :=
  tables <- download_file ;;
  analysis <- analyze_positions tables.1 tables.2 ;;
  retrieve_news_with_rag "AAPL" ;;;
  display_results analysis.1.1 analysis.1.2 analysis.2.

(** Lines 180-181: the script builds the object and runs it. *)
Definition script : M world unit :=
  __init__ "config.yaml" "secrets.yaml" ;;;
  execute.

End Analyzer.

(** ** A sample environment

    A regulator sheet with four current and two historical rows published on
    10 January 2024, and a news feed of two articles.  The network is left
    open: a run is fixed by what the two GETs answer. *)

Module Sample.

Definition jan10 : datetime := mk_datetime 2024 1 10 0 0 0 0.
Definition jan09 : datetime := mk_datetime 2024 1 9 0 0 0 0.

Definition row (holder : string) (pct : float) (d : datetime)
    (issuer isin_ : string) : position_row :=
  mk_row (Some holder) (Some pct) (Some d) (Some issuer) (Some isin_).

Definition current : table :=
  [ row "Alpha Capital" 0.75 jan10 "ENI" "IT0003132476";
    row "Beta Partners" 1.25 jan09 "SAIPEM" "IT0005495657";
    row "Gamma Fund" 0.5 jan10 "ENI S.P.A." "IT0003132476";
    row "Alpha Capital" 0.625 jan10 "SAIPEM" "IT0005495657" ].

Definition historical : table :=
  [ row "Delta LLP" 0.375 jan10 "ENI" "IT0003132476";
    row "Alpha Capital" 0.875 jan09 "ENI" "IT0003132476" ].

Definition sheet_url : string := "https://regulator.example/pnc.xlsx".
Definition news_url : string := "https://news.example/query?tickers=AAPL".

Definition config : pyval :=
  PDict [("url", PStr sheet_url); ("destfile", PStr "/data");
         ("news_endpoint", PStr "https://news.example/query?tickers={}")].

Definition secrets : pyval :=
  PDict [("news_api_key", PStr "k"); ("hugging_face_user_token", PStr "t")].

(** Two articles with the same title. *)
Definition articles : list (pyval * pyval) :=
  [(PStr "Apple slides", PStr "u1"); (PStr "Apple slides", PStr "u2")].

Definition entries : list pyval :=
  [PDict [("title", PStr "Apple slides"); ("url", PStr "u1")];
   PDict [("title", PStr "Apple slides"); ("url", PStr "u2")]].

Definition feed_body : list (string * pyval) := [("feed", PList entries)].

Definition feed : pyval := PDict feed_body.

Definition sheet_response : response :=
  mk_response 200 "OK" sheet_url (Ok [Byte.x50; Byte.x4b])
    (Raise (ValueError "not JSON")).

Definition news_response : response :=
  mk_response 200 "OK" news_url (Ok []) (Ok feed).

Definition not_found : response :=
  mk_response 404 "Not Found" news_url (Ok []) (Ok (PDict [])).

Definition connection_error : exn :=
  RequestException "ConnectionError" "Max retries exceeded".

(** A three-dimensional embedding: the length of the text, the number of
    its words, and a constant. *)
Definition count_up (n : nat) : float :=
  Nat.iter n (λ x, (x + 1)%float) 0%float.

Definition embedding (s : string) : list float :=
  [count_up (String.length s);
   count_up (length (String.words s));
   1%float].

Definition env_of (sheet news : result response) (date_cell : pyval)
    : env :=
  {| yaml_safe_load path :=
       if decide (path = "config.yaml") then Ok config
       else if decide (path = "secrets.yaml") then Ok secrets
       else Raise (OSError "No such file or directory");
     strftime_now := "10-01-24";
     requests_get url :=
       match url with
       | PStr u => if decide (u = sheet_url) then sheet else news
       | _ => Raise (RequestException "MissingSchema" "Invalid URL")
       end;
     requests_post _ _ _ :=
       Ok (mk_response 200 "OK" "" (Ok []) (Ok PNone));
     read_excel_positions _ sheet_name :=
       if decide (sheet_name = " Correnti - Current ") then Ok current
       else if decide (sheet_name = " Storiche - Historic ")
       then Ok historical
       else Raise (ValueError "Worksheet not found");
     read_excel_date_cell _ _ := Ok date_cell;
     strptime v :=
       match v with
       | PStr s =>
           if decide (s = "10/01/2024") then Ok jan10
           else Raise (ValueError "time data does not match format")
       | _ => Raise (TypeError "strptime() argument 1 must be str")
       end;
     open_wb _ := None;
     str_format template arg :=
       if decide (template = "https://news.example/query?tickers={}")
       then Ok ("https://news.example/query?tickers=" +:+ arg)
       else Ok template;
     py_repr _ := "<object>";
     sentence_transformer model := Ok model;
     encoder_encode v :=
       match v with
       | PStr s => Ok (embedding s)
       | _ => Raise (TypeError "expected str")
       end;
     embedding_dimension := 3;
     uuid4 n := "uuid-" +:+ pretty n;
     show_table t := pretty (length t) +:+ " rows";
     show_aggregate a := pretty (length a) +:+ " rows" |}.

(** All goes well; the sheet cannot be fetched; the news endpoint answers
    404; the date cell of the sheet is not a date. *)
Definition env_ok : env :=
  env_of (Ok sheet_response) (Ok news_response) (PStr "10/01/2024").
Definition env_offline : env :=
  env_of (Raise connection_error) (Ok not_found) (PStr "10/01/2024").
Definition env_404 : env :=
  env_of (Ok sheet_response) (Ok not_found) (PStr "10/01/2024").
Definition env_bad_date : env :=
  env_of (Ok sheet_response) (Ok not_found) (PStr "n/a").

(** The object after the constructor has run, and after [download_file]. *)
Definition analyzer : world :=
  (__init__ env_ok "config.yaml" "secrets.yaml" fresh_world).1.

Definition downloaded : world := (download_file env_ok analyzer).1.

End Sample.

(** ** Specification predicates *)

(** [preserves P m]: running [m] from a state where [P] holds ends, with a
    value or an exception, in a state where [P] holds. *)
Definition preserves {Σ A} (P : Σ → Prop) (m : M Σ A) : Prop :=
  ∀ σ, P σ → P (m σ).1.

(** The download gets no usable answer: [requests.get] raises [e], or it
    answers and [raise_for_status] raises [e]. *)
Definition request_fails (E : env) (url : pyval) (e : exn) : Prop :=
  requests_get E url = Raise e
  ∨ ∃ r, requests_get E url = Ok r ∧ raise_for_status r = Raise e.

(** One of the three sheet reads or the date parse raises [e], those before
    it having succeeded. *)
Definition parse_fails (E : env) (bytes : list Byte.byte) (e : exn) : Prop :=
  read_excel_positions E bytes " Correnti - Current " = Raise e
  ∨ (∃ current,
       read_excel_positions E bytes " Correnti - Current " = Ok current
       ∧ (read_excel_positions E bytes " Storiche - Historic " = Raise e
          ∨ ∃ historical,
              read_excel_positions E bytes " Storiche - Historic "
              = Ok historical
              ∧ (read_excel_date_cell E bytes " Pubb. Data - Pubb. Date "
                 = Raise e
                 ∨ ∃ date_str,
                     read_excel_date_cell E bytes " Pubb. Data - Pubb. Date "
                     = Ok date_str
                     ∧ strptime E date_str = Raise e))).

(** A feed entry is an object that has both fields, with these values. *)
Definition has_fields (item : pyval) (pair : pyval * pyval) : Prop :=
  ∃ d, item = PDict d
       ∧ dict_lookup d "title" = Some pair.1
       ∧ dict_lookup d "url" = Some pair.2.

(** The POST requests among those sent. *)
Definition posts (w : world) : list request :=
  filter (λ r, is_post r) (sent w).

(** What a constructor that has returned leaves in [self], as far as the
    news methods rely on it. *)
Record initialized (w : world) : Prop := mk_initialized {
  init_client : ∃ q, self_dict w !! "qdrant" = Some (AClient q);
  init_collection_name :
    self_dict w !! "COLLECTION_NAME" = Some (AVal (PStr "Press news"));
  init_distance : self_dict w !! "DISTANCE" = Some (ADistance COSINE);
  init_encoder : ∃ model, self_dict w !! "encoder" = Some (AEncoder model);
  init_news_endpoint :
    ∃ v, self_dict w !! "news_endpoint" = Some (AVal v);
  init_token : ∃ v, self_dict w !! "hugging_face_token" = Some (AVal v);
  init_no_endpoint : self_dict w !! "llm_inference_endpoint" = None }.

(** The invariant of the program: the object is initialized and no POST has
    been sent. *)
Definition quiet (w : world) : Prop := initialized w ∧ posts w = [].

(** The states of the program: the object as a returning constructor leaves
    it, then any calls of its methods, with any arguments, each run to its
    return or to its exception. *)
Inductive reachable (E : env) : world → Prop :=
| reach_init config_path secrets_path w :
    __init__ E config_path secrets_path fresh_world = (w, Ok tt) →
    reachable E w
| reach_download_file w :
    reachable E w → reachable E (download_file E w).1
| reach_analyze_positions w current historical :
    reachable E w → reachable E (analyze_positions current historical w).1
| reach_retrieve_news w company_name :
    reachable E w → reachable E (retrieve_news E company_name w).1
| reach_embed_and_store_news w articles :
    reachable E w → reachable E (embed_and_store_news E articles w).1
| reach_retrieve_news_with_rag w company_name :
    reachable E w → reachable E (retrieve_news_with_rag E company_name w).1
| reach_display_results w new_positions closed_positions aggregate :
    reachable E w →
    reachable E
      (display_results E new_positions closed_positions aggregate w).1
| reach_execute w :
    reachable E w → reachable E (execute E w).1.

(** The collections of the client that [self.qdrant] holds. *)
Definition client (w : world) : gmap string collection :=
  match self_dict w !! "qdrant" with
  | Some (AClient q) => q
  | _ => ∅
  end.

Definition collection_exists (w : world) (name : string) : bool :=
  bool_decide (is_Some (client w !! name)).

(** The points of a collection; none if there is no such collection. *)
Definition stored_points (w : world) (name : string) : list point :=
  match client w !! name with
  | Some c => points c
  | None => []
  end.

(** The world once ["Press news"] is there: as it is if the collection
    exists, with a new empty collection otherwise. *)
Definition with_collection (E : env) (w : world) : world :=
  if collection_exists w "Press news" then w
  else
    (setattr "qdrant"
       (AClient (<["Press news" :=
                     mk_collection (embedding_dimension E) COSINE []]>
                   (client w))) w).1.

(** Every stored point carries the title and url of one of [articles]. *)
Definition stored_from (articles : list (pyval * pyval)) (w : world) : Prop :=
  ∀ name c p,
    client w !! name = Some c → p ∈ points c →
    ∃ article, article ∈ articles ∧ point_payload p = article_payload article.

(** Calls of [embed_and_store_news], one per batch, each run to its return or
    to its exception. *)
Definition embed_batches (E : env) (batches : list (list (pyval * pyval)))
    (w : world) : world :=
  foldl (λ w batch, (embed_and_store_news E batch w).1) w batches.

(** The articles of a batch that get upserted: the loop goes on until the
    encoder raises on a title. *)
Definition encodable (E : env) (article : pyval * pyval) : bool :=
  match encoder_encode E article.1 with Ok _ => true | Raise _ => false end.

Fixpoint upserted (E : env) (batch : list (pyval * pyval))
    : list (pyval * pyval) :=
  match batch with
  | [] => []
  | article :: rest =>
      if encodable E article then article :: upserted E rest else []
  end.

(** The object is initialized, the collection is there, and the stored
    points come from [articles]. *)
Definition indexed (articles : list (pyval * pyval)) (w : world) : Prop :=
  initialized w
  ∧ is_Some (client w !! "Press news")
  ∧ stored_from articles w.

(** ** Further specification predicates *)

(** The rows of a table that carry an ISIN. *)
Definition keyed_rows (df : table) : table :=
  filter (λ r, is_Some (isin r)) df.

#[global] Instance string_le_total : Total string_le.
Proof. intros a b. apply String.leb_total. Qed.

(** The name of the file [download_file] writes. *)
Definition download_path (E : env) (destfile : string) : string :=
  os_path_join destfile ("pnc_consob_" +:+ strftime_now E +:+ ".xlsx").

(** The sheet is fetched and parsed: the GET answers [r] with a good status
    and content [bytes], the two position sheets read as [current] and
    [historical], and the date cell parses as [D]. *)
Record fetched (E : env) (url : pyval) (bytes : list Byte.byte)
    (current historical : table) (D : datetime) : Prop := mk_fetched {
  fetched_response :
    ∃ r, requests_get E url = Ok r ∧ raise_for_status r = Ok tt
         ∧ content r = Ok bytes;
  fetched_current :
    read_excel_positions E bytes " Correnti - Current " = Ok current;
  fetched_historical :
    read_excel_positions E bytes " Storiche - Historic " = Ok historical;
  fetched_date :
    ∃ date_str,
      read_excel_date_cell E bytes " Pubb. Data - Pubb. Date " = Ok date_str
      ∧ strptime E date_str = Ok D }.

(** The file cannot be written: the destination is not a string, or opening
    the file raises. *)
Definition cannot_open (E : env) (w : world) (e : exn) : Prop :=
  (∃ v, self_dict w !! "destfile" = Some (AVal v)
        ∧ (∀ s, v ≠ PStr s) ∧ e = TypeError "expected str")
  ∨ (∃ destfile, self_dict w !! "destfile" = Some (AVal (PStr destfile))
                 ∧ open_wb E (download_path E destfile) = Some e).

(** [ends P m Q R]: from a state where [P] holds, [m] returns in a state
    where [Q] holds or raises in a state where [R] holds. *)
Definition ends {Σ A} (P : Σ → Prop) (m : M Σ A) (Q R : Σ → Prop) : Prop :=
  ∀ σ, P σ →
    match (m σ).2 with
    | Ok _ => Q (m σ).1
    | Raise _ => R (m σ).1
    end.

(** Standard output is [out]. *)
Definition said (out : list string) (w : world) : Prop := stdout w = out.

(** Standard output is [out] followed by at most [k] lines. *)
Definition printed (out : list string) (k : nat) (w : world) : Prop :=
  ∃ lines, stdout w = out ++ lines ∧ (length lines ≤ k)%nat.



(** Nothing printed, sent or written yet. *)
Definition untouched (w : world) : Prop :=
  stdout w = [] ∧ sent w = [] ∧ filesystem w = ∅.

(** The news request is well formed: the endpoint is a template that
    formats, with the company name, to [url]. *)
Definition news_request (E : env) (w : world) (company_name url : string)
    : Prop :=
  ∃ template,
    self_dict w !! "news_endpoint" = Some (AVal (PStr template))
    ∧ str_format E template company_name = Ok url.

(** The ways [retrieve_news] fails, with the URL requested if the failure
    comes after the request: the endpoint is no string (it has no [format]),
    the formatting raises, the GET raises, the body of a 200 answer is no
    JSON, is no object, or its feed cannot be iterated. *)
Inductive news_failure (E : env) (w : world) (company_name : string)
    : option string → exn → Prop :=
| endpoint_not_a_string v :
    self_dict w !! "news_endpoint" = Some (AVal v) →
    (∀ s, v ≠ PStr s) →
    news_failure E w company_name None (AttributeError "format")
| format_raises template e :
    self_dict w !! "news_endpoint" = Some (AVal (PStr template)) →
    str_format E template company_name = Raise e →
    news_failure E w company_name None e
| get_raises url e :
    news_request E w company_name url →
    requests_get E (PStr url) = Raise e →
    news_failure E w company_name (Some url) e
| json_raises url r e :
    news_request E w company_name url →
    requests_get E (PStr url) = Ok r → status_code r = 200 →
    json r = Raise e →
    news_failure E w company_name (Some url) e
| body_not_an_object url r body :
    news_request E w company_name url →
    requests_get E (PStr url) = Ok r → status_code r = 200 →
    json r = Ok body → (∀ d, body ≠ PDict d) →
    news_failure E w company_name (Some url) (AttributeError "get")
| feed_not_iterable url r body feed e :
    news_request E w company_name url →
    requests_get E (PStr url) = Ok r → status_code r = 200 →
    json r = Ok (PDict body) → dict_lookup body "feed" = Some feed →
    py_iter feed = Raise e →
    news_failure E w company_name (Some url) e.

(** The world after the request of [retrieve_news], if there was one. *)
Definition after_request (w : world) (requested : option string) : world :=
  match requested with
  | Some url => (send (GET (PStr url)) w).1
  | None => w
  end.



(** A point made of an article: its identifier is one of the first [n]
    drawn, its vector is the encoding of the title, its payload holds the
    title and the url. *)
Definition point_of (E : env) (n : nat) (p : point) : Prop :=
  ∃ i article,
    (i < n)%nat
    ∧ point_id p = uuid4 E i
    ∧ encoder_encode E article.1 = Ok (point_vector p)
    ∧ point_payload p = article_payload article.

(** The store as the program keeps it: no collection but ["Press news"],
    which has the dimension of the encoder and the cosine distance; its
    points have distinct identifiers and are made of articles. *)
Record store_ok (E : env) (w : world) : Prop := mk_store_ok {
  store_collections :
    ∀ name c, client w !! name = Some c →
      name = "Press news"
      ∧ vectors_size c = embedding_dimension E
      ∧ vectors_distance c = COSINE;
  store_ids : NoDup (point_id <$> stored_points w "Press news");
  store_points :
    Forall (point_of E (uuid_draws w)) (stored_points w "Press news") }.

Definition stocked (E : env) (w : world) : Prop := quiet w ∧ store_ok E w.

(** ** Faulty environments

    The sample environment with one thing going wrong: the news endpoint
    cannot be reached; it answers 200 with a body that has no feed; the
    destination cannot be written; the configuration file is missing. *)

Module Faults.

Definition news_down : env :=
  Sample.env_of (Ok Sample.sheet_response) (Raise Sample.connection_error)
    (PStr "10/01/2024").

Definition no_feed : env :=
  Sample.env_of (Ok Sample.sheet_response)
    (Ok (mk_response 200 "OK" Sample.news_url (Ok [])
           (Ok (PDict [("items", PStr "0")]))))
    (PStr "10/01/2024").

Definition with_files (E : env) (load : string → result pyval)
    (open : string → option exn) : env :=
  {| yaml_safe_load := load;
     strftime_now := strftime_now E;
     requests_get := requests_get E;
     requests_post := requests_post E;
     read_excel_positions := read_excel_positions E;
     read_excel_date_cell := read_excel_date_cell E;
     strptime := strptime E;
     open_wb := open;
     str_format := str_format E;
     py_repr := py_repr E;
     sentence_transformer := sentence_transformer E;
     encoder_encode := encoder_encode E;
     embedding_dimension := embedding_dimension E;
     uuid4 := uuid4 E;
     show_table := show_table E;
     show_aggregate := show_aggregate E |}.

Definition read_only : env :=
  with_files Sample.env_ok (yaml_safe_load Sample.env_ok)
    (λ _, Some (OSError "Read-only file system")).


End Faults.

(** * Properties *)

(** ** Tables: masks, groups *)

Lemma getitem_mask_series_eq (df : table) (d : datetime) :
  getitem_mask df (series_eq (position_date <$> df) d)
  = filter (λ r, position_date r = Some d) df.
Proof.
  unfold getitem_mask, series_eq.
  induction df as [|r df IH]; [done|].
  rewrite filter_cons, <- IH. simpl.
  case_bool_decide; case_decide; done.
Qed.

Lemma elem_of_group_keys (df : table) (key : string) :
  key ∈ group_keys df ↔ ∃ r, r ∈ df ∧ isin r = Some key.
Proof.
  unfold group_keys. rewrite merge_sort_Permutation, elem_of_remove_dups.
  apply list_elem_of_omap.
Qed.

Lemma NoDup_group_keys (df : table) : NoDup (group_keys df).
Proof.
  unfold group_keys. rewrite merge_sort_Permutation.
  apply NoDup_remove_dups.
Qed.

Lemma filter_fmap_key {A} (f : string → A) (key_of : A → string)
    (keys : list string) (k : string) :
  (∀ k', key_of (f k') = k') →
  NoDup keys → k ∈ keys →
  filter (λ a, key_of a = k) (f <$> keys) = [f k].
Proof.
  intros Hkey Hnd Hin.
  induction Hnd as [|k' keys Hnotin Hnd IH]; [by apply elem_of_nil in Hin|].
  rewrite fmap_cons, filter_cons.
  destruct (decide (key_of (f k') = k)) as [Heq|Hne].
  - rewrite Hkey in Heq. subst k'. f_equal.
    clear IH Hin. induction keys as [|k'' keys IH]; [done|].
    rewrite fmap_cons, filter_cons_False.
    + apply IH.
      * intros ?. apply Hnotin. by right.
      * by inversion Hnd.
    + rewrite Hkey. intros ->. apply Hnotin. by left.
  - apply IH. apply elem_of_cons in Hin as [->|]; [|done].
    by rewrite Hkey in Hne.
Qed.

Lemma agg_first_spec {A} (pre : list (option A)) (x : A)
    (post : list (option A)) :
  Forall (λ c, c = None) pre →
  agg_first (pre ++ Some x :: post) = Some x.
Proof.
  unfold agg_first. induction 1 as [|c pre -> _ IH]; [done|]. apply IH.
Qed.

Lemma agg_first_none {A} (column : list (option A)) :
  Forall (λ c, c = None) column → agg_first column = None.
Proof. unfold agg_first. induction 1 as [|c column -> _ IH]; done. Qed.

(** ** Reasoning about effects *)

Section Preserves.
Context {Σ : Type} (P : Σ → Prop).

Lemma preserves_ret {A} (a : A) : preserves P (ret a).
Proof. by intros σ. Qed.

Lemma preserves_raise {A} (e : exn) : preserves P (@raise Σ A e).
Proof. by intros σ. Qed.

Lemma preserves_lift {A} (r : result A) : preserves P (lift r).
Proof. by intros σ. Qed.

Lemma preserves_bind {A B} (m : M Σ A) (k : A → M Σ B) :
  preserves P m → (∀ a, preserves P (k a)) → preserves P (bind m k).
Proof.
  intros Hm Hk σ Hσ. unfold bind. specialize (Hm σ Hσ).
  destruct (m σ) as [σ' [a|e]]; [by apply Hk|done].
Qed.

Lemma preserves_try_except {A} (m : M Σ A) catches (h : exn → M Σ A) :
  preserves P m → (∀ e, preserves P (h e)) →
  preserves P (try_except m catches h).
Proof.
  intros Hm Hh σ Hσ. unfold try_except. specialize (Hm σ Hσ).
  destruct (m σ) as [σ' [a|e]]; [done|].
  destruct (catches e); [by apply Hh|done].
Qed.

Lemma preserves_for_each {A} (l : list A) (body : A → M Σ unit) :
  (∀ x, x ∈ l → preserves P (body x)) → preserves P (for_each l body).
Proof.
  induction l as [|x l IH]; intros Hbody; [apply preserves_ret|].
  apply preserves_bind.
  - apply Hbody. by left.
  - intros _. apply IH. intros y Hy. apply Hbody. by right.
Qed.

Lemma preserves_list_comp {A B} (l : list A) (f : A → M Σ B) :
  (∀ x, preserves P (f x)) → preserves P (list_comp l f).
Proof.
  intros Hf. induction l as [|x l IH]; [apply preserves_ret|].
  apply preserves_bind; [apply Hf|]. intros y.
  apply preserves_bind; [apply IH|]. intros ys. apply preserves_ret.
Qed.
End Preserves.

Section PreservesWorld.
Context (P : world → Prop).

Lemma preserves_getattr name : preserves P (getattr name).
Proof.
  intros w Hw. unfold getattr.
  destruct (self_dict w !! name); [done|]. by case_decide.
Qed.

Lemma preserves_on_world {F A} (m : M world A) :
  preserves P m → preserves (λ fw : F * world, P fw.2) (on_world m).
Proof.
  intros Hm [f w] Hw. unfold on_world. simpl in *.
  specialize (Hm w Hw). by destruct (m w).
Qed.

Lemma preserves_store {F} (upd : F → F) :
  preserves (λ fw : F * world, P fw.2) (store upd).
Proof. by intros [f w]. Qed.

Lemma preserves_load {F A} name (var : F → option A) :
  preserves (λ fw : F * world, P fw.2) (load name var).
Proof. intros [f w] Hw. unfold load. simpl. by destruct (var f). Qed.

Lemma preserves_call {F A} (frame : F) (body : M (F * world) A) :
  preserves (λ fw : F * world, P fw.2) body → preserves P (call frame body).
Proof.
  intros Hb w Hw. unfold call. specialize (Hb (frame, w) Hw).
  by destruct (body (frame, w)).
Qed.
End PreservesWorld.

Create HintDb preserves.
#[global] Hint Resolve preserves_ret preserves_raise preserves_lift
  preserves_getattr preserves_store preserves_load : preserves.

(** Walks a method body down to its primitive steps, which the hints or
    [leaf] settle. *)
Ltac preserve_step leaf :=
  cbv beta;
  lazymatch goal with
  | |- preserves _ (bind _ _) => apply preserves_bind; [|intros ?]
  | |- preserves _ (try_except _ _ _) =>
      apply preserves_try_except; [|intros ?]
  | |- preserves _ (for_each _ _) => apply preserves_for_each; intros ? ?
  | |- preserves _ (list_comp _ _) => apply preserves_list_comp; intros ?
  | |- preserves _ (on_world _) => apply preserves_on_world
  | |- preserves _ (call _ _) => apply preserves_call
  | |- preserves _ (match ?x with _ => _ end) => destruct x
  | |- preserves _ (let _ := _ in _) => cbv zeta
  | |- _ => first [solve [auto with preserves] | progress leaf]
  end.

Ltac preserve_with leaf := repeat preserve_step leaf.

(** Running a sequence step by step. *)
Lemma run_bind_ok {Σ A B} (m : M Σ A) (k : A → M Σ B) σ σ' a :
  m σ = (σ', Ok a) → bind m k σ = k a σ'.
Proof. intros H. unfold bind. by rewrite H. Qed.

Lemma run_bind_raise {Σ A B} (m : M Σ A) (k : A → M Σ B) σ σ' e :
  m σ = (σ', Raise e) → bind m k σ = (σ', Raise e).
Proof. intros H. unfold bind. by rewrite H. Qed.

Lemma bind_ok_inv {Σ A B} (m : M Σ A) (k : A → M Σ B) σ σ' b :
  bind m k σ = (σ', Ok b) →
  ∃ σ1 a, m σ = (σ1, Ok a) ∧ k a σ1 = (σ', Ok b).
Proof.
  unfold bind. destruct (m σ) as [σ1 [a|e]]; [eauto|done].
Qed.

Lemma lift_ok_inv {Σ A} (r : result A) (σ σ' : Σ) (a : A) :
  lift r σ = (σ', Ok a) → σ' = σ ∧ r = Ok a.
Proof. by intros [= -> ->]. Qed.

Lemma setattr_ok_inv (name : string) (a : attr) (w w' : world) (u : unit) :
  setattr name a w = (w', Ok u) →
  w' = mk_world (<[name := a]> (self_dict w)) (stdout w) (filesystem w)
         (sent w) (uuid_draws w).
Proof. by intros [= <-]. Qed.

Lemma getattr_lookup (w : world) (name : string) (a : attr) :
  self_dict w !! name = Some a → getattr name w = (w, Ok a).
Proof. intros H. unfold getattr. by rewrite H. Qed.

Lemma getattr_missing (w : world) (name : string) :
  self_dict w !! name = None → name ∉ class_dict →
  getattr name w = (w, Raise (AttributeError name)).
Proof. intros H Hcls. unfold getattr. rewrite H. by case_decide. Qed.

(** ** [analyze_positions] *)

(** The method reads one attribute and writes nothing: its outcome is
    a function of the two tables and of what [pubblication_date] holds. *)
Lemma analyze_positions_unfold (current historical : table) (w : world) :
  analyze_positions current historical w
  = match self_dict w !! "pubblication_date" with
    | Some a =>
        (w, Ok (getitem_mask current (date_mask current a),
                getitem_mask historical (date_mask historical a),
                groupby_isin_agg current))
    | None => (w, Raise (AttributeError "pubblication_date"))
    end.
Proof.
  unfold analyze_positions.
  destruct (self_dict w !! "pubblication_date") as [a|] eqn:Hd.
  - by rewrite !(run_bind_ok _ _ _ _ _ (getattr_lookup _ _ _ Hd)).
  - apply run_bind_raise, getattr_missing; [done|].
    by refine (bool_decide_unpack _ _).
Qed.

Lemma groupby_group (df : table) (key : string) :
  (∃ r, r ∈ df ∧ isin r = Some key) →
  filter (λ a, agg_isin a = key) (groupby_isin_agg df)
  = [aggregate_group df key].
Proof.
  intros Hin. unfold groupby_isin_agg.
  apply (filter_fmap_key (aggregate_group df) agg_isin);
    [done|apply NoDup_group_keys|].
  by apply elem_of_group_keys.
Qed.

Lemma group_rows_issuer (pre : table) (r : position_row) (post : table)
    (key : string) :
  Forall (λ r', isin r' = Some key → share_issuer r' = None) pre →
  isin r = Some key →
  ∃ pre' post',
    share_issuer <$> group_rows (pre ++ r :: post) key
    = pre' ++ share_issuer r :: post' ∧ Forall (λ c, c = None) pre'.
Proof.
  intros Hpre Hr. unfold group_rows.
  rewrite filter_app, filter_cons_True by done.
  rewrite fmap_app, fmap_cons. do 2 eexists. split; [done|].
  induction Hpre as [|r' pre Hr' _ IH]; [constructor|].
  rewrite filter_cons. case_decide; [|done].
  rewrite fmap_cons. constructor; [by apply Hr'|done].
Qed.

(** C1: for every publication date [D] held by [self.pubblication_date] and
    every pair of tables, [analyze_positions] returns as [new_positions]
    exactly the rows of the current table whose Position Date equals [D], and
    as [closed_positions] exactly the rows of the historical table whose
    Position Date equals [D] (same rows, same order, same multiplicity); the
    comparison is equality of the whole date-time value, and a row is in the
    result if and only if it is in the table with that date. *)
Theorem analyze_positions_filters_by_date (w : world)
    (current historical : table) (D : datetime) :
  self_dict w !! "pubblication_date" = Some (ADate D) →
  ∃ new_positions closed_positions aggregate,
    analyze_positions current historical w
    = (w, Ok (new_positions, closed_positions, aggregate))
    ∧ new_positions = filter (λ r, position_date r = Some D) current
    ∧ closed_positions = filter (λ r, position_date r = Some D) historical
    ∧ (∀ r, r ∈ new_positions ↔ r ∈ current ∧ position_date r = Some D)
    ∧ (∀ r, r ∈ closed_positions ↔ r ∈ historical ∧ position_date r = Some D).
Proof.
  intros Hdate. rewrite analyze_positions_unfold, Hdate. simpl.
  rewrite !getitem_mask_series_eq.
  do 3 eexists. split; [done|]. do 2 (split; [done|]).
  split; intros r; rewrite list_elem_of_filter; tauto.
Qed.

(** C2: for every current table and every ISIN [I] present in it, the
    aggregate returned by [analyze_positions] has exactly one group keyed by
    [I]; its holder list has as many entries as the current table has rows
    with that ISIN; holders and percentages are those of these rows, in input
    row order and with repetitions kept; and its issuer is the first Share
    Issuer value met among these rows (rows whose Share Issuer cell is empty
    carry no value and are passed over; the issuer is missing when all of
    them are empty). *)
Theorem analyze_positions_aggregates_by_isin (w : world)
    (current historical : table) (I : string) :
  is_Some (self_dict w !! "pubblication_date") →
  (∃ r, r ∈ current ∧ isin r = Some I) →
  ∃ new_positions closed_positions aggregate group,
    analyze_positions current historical w
    = (w, Ok (new_positions, closed_positions, aggregate))
    ∧ filter (λ a, agg_isin a = I) aggregate = [group]
    ∧ length (agg_holders group)
      = length (filter (λ r, isin r = Some I) current)
    ∧ agg_holders group
      = position_holder <$> filter (λ r, isin r = Some I) current
    ∧ agg_percentages group
      = net_short_position <$> filter (λ r, isin r = Some I) current
    ∧ (∀ pre r post s,
         current = pre ++ r :: post →
         Forall (λ r', isin r' = Some I → share_issuer r' = None) pre →
         isin r = Some I → share_issuer r = Some s →
         agg_issuer group = Some s)
    ∧ (Forall (λ r, isin r = Some I → share_issuer r = None) current →
       agg_issuer group = None).
Proof.
  intros [a Hdate] Hin. rewrite analyze_positions_unfold, Hdate.
  do 4 eexists. split; [done|].
  split; [by apply groupby_group|]. simpl.
  split; [by rewrite length_fmap|]. do 2 (split; [done|]).
  split.
  - intros pre r post s -> Hpre Hr Hs.
    destruct (group_rows_issuer pre r post I Hpre Hr)
      as (pre' & post' & -> & Hnone).
    rewrite Hs. by apply agg_first_spec.
  - intros Hall. apply agg_first_none. unfold group_rows.
    rewrite Forall_fmap. apply Forall_forall.
    intros r [Hr Hin']%list_elem_of_filter.
    rewrite Forall_forall in Hall. by apply Hall.
Qed.

(** C7: [analyze_positions] is a function of the current table, the
    historical table and the publication date alone: it leaves the object and
    the process untouched, two objects that hold the same publication date
    give the same outcome whatever else differs between them, and running it
    twice in a row on the same inputs gives the same output twice. *)
Theorem analyze_positions_pure (w1 w2 : world) (current historical : table) :
  self_dict w1 !! "pubblication_date" = self_dict w2 !! "pubblication_date" →
  (analyze_positions current historical w1).1 = w1
  ∧ (analyze_positions current historical w1).2
    = (analyze_positions current historical w2).2
  ∧ ∀ out, (analyze_positions current historical w1).2 = Ok out →
      (first_run <- analyze_positions current historical ;;
       second_run <- analyze_positions current historical ;;
       ret (first_run, second_run)) w1 = (w1, Ok (out, out)).
Proof.
  intros Hdate. rewrite !analyze_positions_unfold, <- Hdate.
  destruct (self_dict w1 !! "pubblication_date") as [a|] eqn:Hd; simpl;
    (do 2 (split; [done|])); intros out [= <-].
  assert (analyze_positions current historical w1
          = (w1, Ok (getitem_mask current (date_mask current a),
                     getitem_mask historical (date_mask historical a),
                     groupby_isin_agg current))) as Hrun
    by (by rewrite analyze_positions_unfold, Hd).
  by rewrite !(run_bind_ok _ _ _ _ _ Hrun).
Qed.

(** ** [download_file] *)

(** C3: if the GET of [download_file] raises a network or HTTP error
    ([requests.get] itself, or [raise_for_status] on the answer), the [try]
    statement ends normally: the error is caught and a message is printed,
    the locals [current] and [historical] are still unbound, nothing else has
    changed, and control goes on to the [return] statement.  The request
    error does not leave [download_file]; what the [return] statement does
    with the unbound [current] is an [UnboundLocalError]. *)
Theorem download_file_catches_request_error (E : env) (w : world)
    (url : pyval) (e : exn) :
  self_dict w !! "url" = Some (AVal url) →
  is_request_exception e = true →
  request_fails E url e →
  let filename := "pnc_consob_" +:+ strftime_now E +:+ ".xlsx" in
  let w' := (print ("An error occurred: " +:+ exn_str e)
               (send (GET url) w).1).1 in
  download_try E filename (mk_locals None None, w)
  = ((mk_locals None None, w'), Ok tt)
  ∧ download_return (mk_locals None None, w')
    = ((mk_locals None None, w'), Raise (UnboundLocalError "current"))
  ∧ download_file E w = (w', Raise (UnboundLocalError "current"))
  ∧ (download_file E w).2 ≠ Raise e.
Proof.
  intros Hurl Hexn Hfail filename w'.
  assert (download_try E filename (mk_locals None None, w)
          = ((mk_locals None None, w'), Ok tt)) as Htry.
  { unfold download_try, try_except, bind, on_world, lift. simpl.
    rewrite (getattr_lookup _ _ _ Hurl). simpl.
    destruct Hfail as [Hget|(r & Hget & Hstatus)]; rewrite Hget; simpl;
      [|rewrite Hstatus; simpl]; by rewrite Hexn. }
  split; [done|]. split; [done|].
  assert (download_file E w = (w', Raise (UnboundLocalError "current")))
    as Hrun.
  { unfold download_file, call. cbv zeta.
    by rewrite (run_bind_ok _ _ _ _ _ Htry). }
  split; [done|]. rewrite Hrun. simpl. intros [= <-]. done.
Qed.

(** C10: once the sheet has been fetched, if one of the three sheet reads or
    the date parse raises, the file is neither opened nor written: the file
    system is as before the call, and the exception (no request error is
    among those the spreadsheet and date parsers raise) leaves
    [download_file]. *)
Theorem download_file_parse_error_writes_nothing (E : env) (w : world)
    (url : pyval) (r : response) (bytes : list Byte.byte) (e : exn) :
  self_dict w !! "url" = Some (AVal url) →
  requests_get E url = Ok r →
  raise_for_status r = Ok tt →
  content r = Ok bytes →
  parse_fails E bytes e →
  filesystem (download_file E w).1 = filesystem w
  ∧ (is_request_exception e = false → (download_file E w).2 = Raise e).
Proof.
  intros Hurl Hget Hstatus Hbytes Hfail.
  unfold download_file, call, download_return, download_try, try_except,
    bind, on_world, lift, load, store, ret.
  simpl. rewrite (getattr_lookup _ _ _ Hurl). simpl.
  rewrite Hget. simpl. rewrite Hstatus. simpl. rewrite Hbytes. simpl.
  destruct Hfail as
    [H1|(c & H1 & [H2|(h & H2 & [H3|(d & H3 & H4)])])];
    rewrite ?H1, ?H2, ?H3, ?H4; simpl;
    destruct (is_request_exception e); simpl; split; done.
Qed.

(** ** [retrieve_news] *)

Lemma title_and_url_ok (item : pyval) (pair : pyval * pyval) (w : world) :
  has_fields item pair → title_and_url item w = (w, Ok pair).
Proof.
  intros (d & -> & Ht & Hu). unfold title_and_url, bind, lift, ret. simpl.
  rewrite Ht, Hu. by destruct pair.
Qed.

Lemma list_comp_ok (items : list pyval) (pairs : list (pyval * pyval))
    (w : world) :
  Forall2 has_fields items pairs →
  list_comp items title_and_url w = (w, Ok pairs).
Proof.
  induction 1 as [|item pair items pairs Hitem _ IH]; [done|].
  simpl. rewrite (run_bind_ok _ _ _ _ _ (title_and_url_ok _ _ _ Hitem)).
  by rewrite (run_bind_ok _ _ _ _ _ IH).
Qed.

Lemma list_comp_raise (good : list pyval) (pairs : list (pyval * pyval))
    (bad : pyval) (rest : list pyval) (e : exn) (w : world) :
  Forall2 has_fields good pairs →
  title_and_url bad w = (w, Raise e) →
  list_comp (good ++ bad :: rest) title_and_url w = (w, Raise e).
Proof.
  intros Hgood Hbad.
  induction Hgood as [|item pair items pairs' Hitem _ IH]; simpl.
  - by rewrite (run_bind_raise _ _ _ _ _ Hbad).
  - rewrite (run_bind_ok _ _ _ _ _ (title_and_url_ok _ _ _ Hitem)).
    by rewrite (run_bind_raise _ _ _ _ _ IH).
Qed.

(** What [retrieve_news] does once the endpoint has answered. *)
Lemma retrieve_news_answered (E : env) (w : world)
    (company_name template url : string) (r : response) :
  self_dict w !! "news_endpoint" = Some (AVal (PStr template)) →
  str_format E template company_name = Ok url →
  requests_get E (PStr url) = Ok r →
  retrieve_news E company_name w
  = (if bool_decide (status_code r = 200) then
       body <- lift (json r) ;;
       feed <- lift (py_get body "feed" (PList [])) ;;
       items <- lift (py_iter feed) ;;
       list_comp items title_and_url
     else ret []) (send (GET (PStr url)) w).1.
Proof.
  intros Hattr Hfmt Hget. unfold retrieve_news.
  rewrite (run_bind_ok _ _ w w template).
  2:{ by rewrite (run_bind_ok _ _ _ _ _ (getattr_lookup _ _ _ Hattr)). }
  unfold bind at 1. unfold lift at 1. rewrite Hfmt.
  unfold bind at 1. simpl.
  unfold bind at 1. unfold lift at 1. rewrite Hget. done.
Qed.

(** C4: for every company name, if the news endpoint answers with a status
    code other than 200, [retrieve_news] returns the empty list and does not
    raise; one request has been sent, nothing else has changed. *)
Theorem retrieve_news_non_200 (E : env) (w : world)
    (company_name template url : string) (r : response) :
  self_dict w !! "news_endpoint" = Some (AVal (PStr template)) →
  str_format E template company_name = Ok url →
  requests_get E (PStr url) = Ok r →
  status_code r ≠ 200 →
  retrieve_news E company_name w = ((send (GET (PStr url)) w).1, Ok []).
Proof.
  intros Hattr Hfmt Hget Hstatus.
  rewrite (retrieve_news_answered E w company_name template url r) by done.
  by rewrite bool_decide_eq_false_2.
Qed.

(** C9: for every 200 answer whose JSON body has a [feed] array of entries
    that all hold a [title] and a [url], [retrieve_news] returns one
    (title, url) pair per entry, in feed order, so as many pairs as entries;
    and an entry that lacks one of the two fields, met after well-formed
    ones, is not skipped: the lookup of the missing field raises
    [KeyError]. *)
Theorem retrieve_news_maps_feed (E : env) (w : world)
    (company_name template url : string) (r : response)
    (body : list (string * pyval)) (entries : list pyval) :
  self_dict w !! "news_endpoint" = Some (AVal (PStr template)) →
  str_format E template company_name = Ok url →
  requests_get E (PStr url) = Ok r →
  status_code r = 200 →
  json r = Ok (PDict body) →
  dict_lookup body "feed" = Some (PList entries) →
  (∀ pairs, Forall2 has_fields entries pairs →
     retrieve_news E company_name w = ((send (GET (PStr url)) w).1, Ok pairs)
     ∧ length pairs = length entries)
  ∧ (∀ good pairs d rest field,
       entries = good ++ PDict d :: rest →
       Forall2 has_fields good pairs →
       (field = "title" ∧ dict_lookup d "title" = None)
       ∨ (field = "url" ∧ is_Some (dict_lookup d "title")
                       ∧ dict_lookup d "url" = None) →
       retrieve_news E company_name w
       = ((send (GET (PStr url)) w).1, Raise (KeyError field))).
Proof.
  intros Hattr Hfmt Hget Hstatus Hjson Hfeed.
  assert (retrieve_news E company_name w
          = list_comp entries title_and_url (send (GET (PStr url)) w).1)
    as ->.
  { rewrite (retrieve_news_answered E w company_name template url r) by done.
    rewrite bool_decide_eq_true_2 by done.
    unfold bind, lift. rewrite Hjson. simpl. by rewrite Hfeed. }
  split.
  - intros pairs Hpairs. split; [by apply list_comp_ok|].
    symmetry. by eapply Forall2_length.
  - intros good pairs d rest field -> Hgood Hmiss.
    apply (list_comp_raise good pairs); [done|].
    unfold title_and_url, bind, lift. simpl.
    destruct Hmiss as [[-> Ht]|(-> & [t Ht] & Hu)]; rewrite Ht; [done|].
    by rewrite Hu.
Qed.

(** ** What every method keeps *)

Lemma initialized_ext (w w' : world) :
  self_dict w' = self_dict w → initialized w → initialized w'.
Proof. intros Heq [? ? ? ? ? ? ?]. split; by rewrite Heq. Qed.

Lemma initialized_setattr (name : string) (a : attr) (w : world) :
  name ∉ ["qdrant"; "COLLECTION_NAME"; "DISTANCE"; "encoder";
          "news_endpoint"; "hugging_face_token"; "llm_inference_endpoint"] →
  initialized w → initialized (setattr name a w).1.
Proof.
  intros Hname [? ? ? ? ? ? ?].
  rewrite !not_elem_of_cons in Hname. destruct_and!.
  split; simpl; by rewrite lookup_insert_ne.
Qed.

Lemma initialized_set_client (q : gmap string collection) (w : world) :
  initialized w → initialized (setattr "qdrant" (AClient q) w).1.
Proof.
  intros [? ? ? ? ? ? ?].
  split; simpl; rewrite ?lookup_insert_eq, ?lookup_insert_ne by done; eauto.
Qed.

Lemma quiet_setattr_date d :
  preserves quiet (setattr "pubblication_date" (ADate d)).
Proof.
  intros w [Hi Hp]. split; [|done]. apply initialized_setattr; [|done].
  by refine (bool_decide_unpack _ _).
Qed.

Lemma quiet_set_client q : preserves quiet (setattr "qdrant" (AClient q)).
Proof. intros w [Hi Hp]. split; [|done]. by apply initialized_set_client. Qed.

Lemma quiet_print line : preserves quiet (print line).
Proof. intros w [Hi Hp]. split; [|done]. by apply (initialized_ext w). Qed.

Lemma quiet_write_file path f : preserves quiet (write_file path f).
Proof. intros w [Hi Hp]. split; [|done]. by apply (initialized_ext w). Qed.

Lemma quiet_draw_uuid : preserves quiet draw_uuid.
Proof. intros w [Hi Hp]. split; [|done]. by apply (initialized_ext w). Qed.

Lemma quiet_send_get url : preserves quiet (send (GET url)).
Proof.
  intros w [Hi Hp]. split; [by apply (initialized_ext w)|].
  unfold posts in *. simpl. by rewrite filter_app, Hp.
Qed.

#[global] Hint Resolve quiet_setattr_date quiet_set_client quiet_print
  quiet_write_file quiet_draw_uuid quiet_send_get : preserves.

Ltac preserve := preserve_with fail.

Lemma quiet_download_file E : preserves quiet (download_file E).
Proof. unfold download_file, download_try, download_return. preserve. Qed.

Lemma quiet_analyze_positions current historical :
  preserves quiet (analyze_positions current historical).
Proof. unfold analyze_positions. preserve. Qed.

Lemma quiet_title_and_url item : preserves quiet (title_and_url item).
Proof. unfold title_and_url. preserve. Qed.

Lemma quiet_self_qdrant method : preserves quiet (self_qdrant method).
Proof. unfold self_qdrant. preserve. Qed.

Lemma quiet_self_collection_name : preserves quiet self_collection_name.
Proof. unfold self_collection_name. preserve. Qed.

Lemma quiet_self_encoder method : preserves quiet (self_encoder method).
Proof. unfold self_encoder. preserve. Qed.

#[global] Hint Resolve quiet_title_and_url quiet_self_qdrant
  quiet_self_collection_name quiet_self_encoder : preserves.

Lemma quiet_retrieve_news E company_name :
  preserves quiet (retrieve_news E company_name).
Proof. unfold retrieve_news. preserve. Qed.

Lemma quiet_encode E text : preserves quiet (encode E text).
Proof. unfold encode. preserve. Qed.

Lemma quiet_create_collection name config :
  preserves quiet name → preserves quiet config →
  preserves quiet (create_collection name config).
Proof. intros ? ?. unfold create_collection. preserve. Qed.

Lemma quiet_upsert name p :
  preserves quiet name → preserves quiet (upsert name p).
Proof. intros ?. unfold upsert. preserve. Qed.

Lemma quiet_search name query limit :
  preserves quiet name → preserves quiet (search name query limit).
Proof. intros ?. unfold search. preserve. Qed.

#[global] Hint Resolve quiet_retrieve_news quiet_encode quiet_upsert
  quiet_search : preserves.

Lemma quiet_embed_article E article :
  preserves quiet (embed_article E article).
Proof. unfold embed_article. preserve. Qed.

#[global] Hint Resolve quiet_embed_article : preserves.

Lemma quiet_embed_and_store_news E articles :
  preserves quiet (embed_and_store_news E articles).
Proof.
  unfold embed_and_store_news.
  preserve_with ltac:(apply quiet_create_collection).
Qed.

Lemma quiet_search_news E query : preserves quiet (search_news E query).
Proof. unfold search_news. preserve. Qed.

#[global] Hint Resolve quiet_embed_and_store_news quiet_search_news
  : preserves.

Lemma quiet_rag_prompt E company_name :
  preserves quiet (rag_prompt E company_name).
Proof. unfold rag_prompt. preserve. Qed.

Lemma quiet_display_results E new_positions closed_positions aggregate :
  preserves quiet
    (display_results E new_positions closed_positions aggregate).
Proof. unfold display_results. preserve. Qed.

(** ** [retrieve_news_with_rag] *)

(** On an initialized object the inference step stops at the attribute
    lookup, before anything is sent. *)
Lemma rag_inference_raises (E : env) (prompt : string) (w : world) :
  initialized w →
  rag_inference E prompt w
  = (w, Raise (AttributeError "llm_inference_endpoint")).
Proof.
  intros [_ _ _ _ _ [token Htoken] Hnone]. unfold rag_inference.
  rewrite (run_bind_ok _ _ w w token).
  2:{ by rewrite (run_bind_ok _ _ _ _ _ (getattr_lookup _ _ _ Htoken)). }
  cbv zeta. apply run_bind_raise, run_bind_raise, getattr_missing; [done|].
  by refine (bool_decide_unpack _ _).
Qed.

Lemma retrieve_news_with_rag_run (E : env) (company_name : string)
    (w : world) :
  quiet w →
  (retrieve_news_with_rag E company_name w).1
  = (rag_prompt E company_name w).1
  ∧ ∃ e, (retrieve_news_with_rag E company_name w).2 = Raise e.
Proof.
  intros Hw. pose proof (quiet_rag_prompt E company_name w Hw) as [Hi _].
  unfold retrieve_news_with_rag, bind.
  destruct (rag_prompt E company_name w) as [w1 [prompt|e]]; simpl in *.
  - rewrite rag_inference_raises by done. eauto.
  - eauto.
Qed.

Lemma quiet_retrieve_news_with_rag E company_name :
  preserves quiet (retrieve_news_with_rag E company_name).
Proof.
  intros w Hw.
  destruct (retrieve_news_with_rag_run E company_name w Hw) as [-> _].
  by apply quiet_rag_prompt.
Qed.

Lemma quiet_execute E : preserves quiet (execute E).
Proof.
  unfold execute.
  preserve_with ltac:(first [apply quiet_download_file
                            |apply quiet_analyze_positions
                            |apply quiet_retrieve_news_with_rag
                            |apply quiet_display_results]).
Qed.

(** As written the program never gets to print its tables: every run of
    [execute] ends in an exception. *)
Lemma execute_raises (E : env) (w : world) :
  quiet w → ∃ e, (execute E w).2 = Raise e.
Proof.
  intros Hw. unfold execute, bind.
  pose proof (quiet_download_file E w Hw) as Hw1.
  destruct (download_file E w) as [w1 [tables|e]]; [|eauto].
  pose proof (quiet_analyze_positions tables.1 tables.2 w1 Hw1) as Hw2.
  destruct (analyze_positions tables.1 tables.2 w1) as [w2 [analysis|e]];
    [|eauto].
  destruct (retrieve_news_with_rag_run E "AAPL" w2 Hw2) as [_ [e He]].
  destruct (retrieve_news_with_rag E "AAPL" w2) as [w3 [r|e']]; [done|eauto].
Qed.

(** What a constructor that returns has assigned. *)
Lemma init_world (E : env) (config_path secrets_path : string) (w : world) :
  __init__ E config_path secrets_path fresh_world = (w, Ok tt) →
  ∃ url destfile news_endpoint news_api_key token model,
    w = mk_world
          (<["encoder" := AEncoder model]>
             (<["DISTANCE" := ADistance COSINE]>
                (<["COLLECTION_NAME" := AVal (PStr "Press news")]>
                   (<["qdrant" := AClient ∅]>
                      (<["hugging_face_token" := AVal token]>
                         (<["news_api_key" := AVal news_api_key]>
                            (<["news_endpoint" := AVal news_endpoint]>
                               (<["destfile" := AVal destfile]>
                                  (<["url" := AVal url]> ∅)))))))))
          [] ∅ [] 0.
Proof.
  intros H. unfold __init__, fresh_world in H.
  repeat
    (apply bind_ok_inv in H as (? & ? & Hstep & H);
     first [apply lift_ok_inv in Hstep as [-> _]
           |apply setattr_ok_inv in Hstep as ->];
     cbn [self_dict stdout filesystem sent uuid_draws] in H).
  apply setattr_ok_inv in H as ->.
  cbn [self_dict stdout filesystem sent uuid_draws]. by do 6 eexists.
Qed.

Lemma init_quiet (E : env) (config_path secrets_path : string) (w : world) :
  __init__ E config_path secrets_path fresh_world = (w, Ok tt) → quiet w.
Proof.
  intros (? & ? & ? & ? & ? & ? & ->)%init_world.
  split; [|done]. split; simpl; eauto.
Qed.

Lemma init_client_empty (E : env) (config_path secrets_path : string)
    (w : world) :
  __init__ E config_path secrets_path fresh_world = (w, Ok tt) →
  client w = ∅.
Proof. by intros (? & ? & ? & ? & ? & ? & ->)%init_world. Qed.

Lemma reachable_quiet (E : env) (w : world) : reachable E w → quiet w.
Proof.
  induction 1 as [cp sp w Hinit| | | | | | |].
  - by eapply init_quiet.
  - by apply quiet_download_file.
  - by apply quiet_analyze_positions.
  - by apply quiet_retrieve_news.
  - by apply quiet_embed_and_store_news.
  - by apply quiet_retrieve_news_with_rag.
  - by apply quiet_display_results.
  - by apply quiet_execute.
Qed.

(** C5: [llm_inference_endpoint] is assigned nowhere: in every state of the
    program (after the constructor and any calls of the methods) the
    attribute is absent from the object, so every run of
    [retrieve_news_with_rag] ends in an exception and sends no POST; a run
    that gets as far as the inference call (the prompt has been built) fails
    there with the attribute-lookup error. *)
Theorem inference_endpoint_never_assigned (E : env) (w : world)
    (company_name : string) :
  reachable E w →
  self_dict w !! "llm_inference_endpoint" = None
  ∧ (∃ e, (retrieve_news_with_rag E company_name w).2 = Raise e)
  ∧ posts (retrieve_news_with_rag E company_name w).1 = []
  ∧ (∀ w1 prompt,
       rag_prompt E company_name w = (w1, Ok prompt) →
       retrieve_news_with_rag E company_name w
       = (w1, Raise (AttributeError "llm_inference_endpoint"))).
Proof.
  intros Hw%reachable_quiet.
  split; [by destruct Hw as [[] _]|].
  split; [by apply retrieve_news_with_rag_run|].
  split; [by apply quiet_retrieve_news_with_rag|].
  intros w1 prompt Hprompt.
  pose proof (quiet_rag_prompt E company_name w Hw) as [Hi _].
  rewrite Hprompt in Hi. unfold retrieve_news_with_rag.
  rewrite (run_bind_ok _ _ _ _ _ Hprompt). by apply rag_inference_raises.
Qed.

(** ** The vector store *)

Lemma client_set_client (q : gmap string collection) (w : world) :
  client (setattr "qdrant" (AClient q) w).1 = q.
Proof. unfold client. simpl. by rewrite lookup_insert_eq. Qed.

Lemma initialized_client (w : world) :
  initialized w → self_dict w !! "qdrant" = Some (AClient (client w)).
Proof. intros [[q Hq] _ _ _ _ _ _]. unfold client. by rewrite Hq. Qed.

Lemma self_qdrant_run (method : string) (w : world) :
  initialized w → self_qdrant method w = (w, Ok (client w)).
Proof.
  intros Hq%initialized_client. unfold self_qdrant.
  by rewrite (run_bind_ok _ _ _ _ _ (getattr_lookup _ _ _ Hq)).
Qed.

Lemma self_collection_name_run (w : world) :
  initialized w → self_collection_name w = (w, Ok "Press news").
Proof.
  intros [_ Hname _ _ _ _ _]. unfold self_collection_name.
  by rewrite (run_bind_ok _ _ _ _ _ (getattr_lookup _ _ _ Hname)).
Qed.

Lemma self_encoder_run (method : string) (w : world) :
  initialized w → ∃ model, self_encoder method w = (w, Ok model).
Proof.
  intros [_ _ _ [model Hm] _ _ _]. exists model. unfold self_encoder.
  by rewrite (run_bind_ok _ _ _ _ _ (getattr_lookup _ _ _ Hm)).
Qed.

Lemma encode_run (E : env) (text : pyval) (w : world) :
  initialized w → encode E text w = (w, encoder_encode E text).
Proof.
  intros [model Hm]%(self_encoder_run "encode"). unfold encode.
  by rewrite (run_bind_ok _ _ _ _ _ Hm).
Qed.

Lemma upsert_run (p : point) (w : world) :
  initialized w →
  upsert self_collection_name p w
  = match client w !! "Press news" with
    | Some c =>
        ((setattr "qdrant"
            (AClient (<["Press news" :=
                          mk_collection (vectors_size c) (vectors_distance c)
                            (upsert_point p (points c))]> (client w))) w).1,
         Ok tt)
    | None => (w, Raise (ValueError ("Collection Press news not found")))
    end.
Proof.
  intros Hi. unfold upsert.
  rewrite (run_bind_ok _ _ _ _ _ (self_qdrant_run _ _ Hi)).
  rewrite (run_bind_ok _ _ _ _ _ (self_collection_name_run _ Hi)).
  by destruct (client w !! "Press news").
Qed.

Lemma search_run (query : list float) (limit : nat) (w : world) :
  initialized w →
  search self_collection_name query limit w
  = match client w !! "Press news" with
    | Some c => (w, Ok (search_collection c query limit))
    | None => (w, Raise (ValueError ("Collection Press news not found")))
    end.
Proof.
  intros Hi. unfold search.
  rewrite (run_bind_ok _ _ _ _ _ (self_qdrant_run _ _ Hi)).
  rewrite (run_bind_ok _ _ _ _ _ (self_collection_name_run _ Hi)).
  by destruct (client w !! "Press news").
Qed.

Lemma embed_and_store_news_run (E : env) (articles : list (pyval * pyval))
    (w : world) :
  initialized w →
  embed_and_store_news E articles w
  = for_each articles (embed_article E) (with_collection E w).
Proof.
  intros Hi. unfold embed_and_store_news.
  rewrite (run_bind_ok _ _ _ _ _ (self_qdrant_run _ _ Hi)).
  rewrite (run_bind_ok _ _ _ _ _ (self_collection_name_run _ Hi)).
  unfold with_collection, collection_exists.
  case_bool_decide as Hex.
  - by rewrite (run_bind_ok _ _ w w tt).
  - rewrite (run_bind_ok _ _ w
               (setattr "qdrant"
                  (AClient (<["Press news" :=
                     mk_collection (embedding_dimension E) COSINE []]>
                     (client w))) w).1 tt); [done|].
    unfold create_collection.
    rewrite (run_bind_ok _ _ _ _ _ (self_qdrant_run _ _ Hi)).
    rewrite (run_bind_ok _ _ _ _ _ (self_collection_name_run _ Hi)).
    destruct (self_encoder_run "get_sentence_embedding_dimension" w Hi)
      as [model Hm].
    destruct Hi as [_ _ Hd _ _ _ _].
    rewrite (run_bind_ok _ _ w w (embedding_dimension E, COSINE)).
    2:{ rewrite (run_bind_ok _ _ _ _ _ Hm).
        rewrite (run_bind_ok _ _ w w COSINE); [done|].
        by rewrite (run_bind_ok _ _ _ _ _ (getattr_lookup _ _ _ Hd)). }
    destruct (client w !! "Press news") eqn:Hc; [|done].
    exfalso. apply Hex. eauto.
Qed.

Lemma elem_of_upsert_point (p p' : point) (ps : list point) :
  p' ∈ upsert_point p ps → p' = p ∨ p' ∈ ps.
Proof.
  induction ps as [|q ps IH]; simpl.
  - intros ->%list_elem_of_singleton. by left.
  - case_decide; rewrite !elem_of_cons.
    + intros [->|Hin]; [by left|]. right. by right.
    + intros [->|Hin]; [right; by left|].
      destruct (IH Hin) as [->|?]; [by left|]. right. by right.
Qed.

Lemma elem_of_rank_insert d (x y : scored_point) (l : list scored_point) :
  y ∈ rank_insert d x l → y = x ∨ y ∈ l.
Proof.
  induction l as [|z l IH]; simpl.
  - intros ->%list_elem_of_singleton. by left.
  - destruct (before d (score x) (score z)); rewrite !elem_of_cons.
    + intros [->|Hin]; [by left|by right].
    + intros [->|Hin]; [right; by left|].
      destruct (IH Hin) as [->|?]; [by left|]. right. by right.
Qed.

Lemma elem_of_rank d (y : scored_point) (l : list scored_point) :
  y ∈ rank d l → y ∈ l.
Proof.
  induction l as [|x l IH]; simpl; [done|].
  intros [->|Hy]%elem_of_rank_insert; [by left|]. right. by apply IH.
Qed.

Lemma search_collection_spec (c : collection) (query : list float)
    (limit : nat) (res : scored_point) :
  res ∈ search_collection c query limit →
  ∃ p, p ∈ points c ∧ payload res = point_payload p.
Proof.
  unfold search_collection. intros Hres%subseteq_take%elem_of_rank.
  apply list_elem_of_fmap in Hres as (p & -> & Hp). eauto.
Qed.

Lemma search_collection_length (c : collection) (query : list float)
    (limit : nat) :
  (length (search_collection c query limit) ≤ limit)%nat.
Proof. unfold search_collection. rewrite length_take. lia. Qed.

Lemma with_collection_indexed (E : env) (S : list (pyval * pyval))
    (w : world) :
  initialized w → stored_from S w → indexed S (with_collection E w).
Proof.
  intros Hi Hst. unfold with_collection, collection_exists.
  case_bool_decide as Hex; [done|].
  split; [by apply initialized_set_client|].
  rewrite client_set_client. split; [by rewrite lookup_insert_eq|].
  intros name c p. rewrite client_set_client.
  destruct (decide (name = "Press news")) as [->|Hne].
  - rewrite lookup_insert_eq. intros [= <-]. simpl. by intros ?%elem_of_nil.
  - rewrite lookup_insert_ne by done. apply Hst.
Qed.

Lemma embed_article_indexed (E : env) (S : list (pyval * pyval))
    (article : pyval * pyval) (w : world) :
  indexed S w →
  if encodable E article then
    ∃ w', embed_article E article w = (w', Ok tt)
          ∧ indexed (S ++ [article]) w'
  else
    ∃ e, embed_article E article w = (w, Raise e).
Proof.
  intros (Hi & [c Hc] & Hst). unfold encodable, embed_article.
  destruct (encoder_encode E article.1) as [v|e] eqn:Henc.
  2:{ exists e. apply run_bind_raise. by rewrite encode_run, Henc. }
  rewrite (run_bind_ok _ _ w w v) by (by rewrite encode_run, Henc).
  unfold bind at 1. simpl. cbv zeta.
  set (w1 := (draw_uuid w).1).
  assert (initialized w1) as Hi1 by (by apply (initialized_ext w)).
  assert (client w1 = client w) as Hcl by done.
  rewrite (upsert_run _ w1 Hi1), Hcl, Hc.
  eexists. split; [done|].
  split; [by apply initialized_set_client|].
  rewrite client_set_client. split; [by rewrite lookup_insert_eq|].
  intros name c' p. rewrite client_set_client.
  destruct (decide (name = "Press news")) as [->|Hne].
  - rewrite lookup_insert_eq. intros [= <-]. simpl.
    intros [->|Hp]%elem_of_upsert_point.
    + exists article. split; [set_solver|done].
    + destruct (Hst _ _ _ Hc Hp) as (a & Ha & Hpay).
      exists a. split; [set_solver|done].
  - rewrite lookup_insert_ne by done. intros Hc' Hp.
    destruct (Hst _ _ _ Hc' Hp) as (a & Ha & Hpay).
    exists a. split; [set_solver|done].
Qed.

Lemma for_each_embed_indexed (E : env) (batch : list (pyval * pyval)) :
  ∀ (S : list (pyval * pyval)) (w : world),
    indexed S w →
    indexed (S ++ upserted E batch) (for_each batch (embed_article E) w).1.
Proof.
  induction batch as [|article rest IH]; intros S w Hw; simpl.
  - by rewrite app_nil_r.
  - pose proof (embed_article_indexed E S article w Hw) as Hstep.
    destruct (encodable E article).
    + destruct Hstep as (w' & Hrun & Hw').
      rewrite (run_bind_ok _ _ _ _ _ Hrun).
      rewrite (cons_middle article S), (assoc_L (++)). by apply IH.
    + destruct Hstep as (e & Hrun).
      rewrite (run_bind_raise _ _ _ _ _ Hrun). by rewrite app_nil_r.
Qed.

Lemma embed_and_store_news_indexed (E : env) (S batch : list (pyval * pyval))
    (w : world) :
  initialized w → stored_from S w →
  indexed (S ++ upserted E batch) (embed_and_store_news E batch w).1.
Proof.
  intros Hi Hst. rewrite embed_and_store_news_run by done.
  by apply for_each_embed_indexed, with_collection_indexed.
Qed.

Lemma embed_batches_stored (E : env) (batches : list (list (pyval * pyval))) :
  ∀ (S : list (pyval * pyval)) (w : world),
    initialized w → stored_from S w →
    initialized (embed_batches E batches w)
    ∧ stored_from (S ++ mjoin (upserted E <$> batches))
        (embed_batches E batches w)
    ∧ (batches ≠ [] →
       is_Some (client (embed_batches E batches w) !! "Press news")).
Proof.
  induction batches as [|batch batches IH]; intros S w Hi Hst.
  { simpl. by rewrite app_nil_r. }
  destruct (embed_and_store_news_indexed E S batch w Hi Hst)
    as (Hi1 & Hex1 & Hst1).
  unfold embed_batches. simpl. fold (embed_batches E batches).
  rewrite (assoc_L (++)).
  destruct (IH _ _ Hi1 Hst1) as (Hi2 & Hst2 & Hex2).
  do 2 (split; [done|]). intros _.
  destruct batches as [|batch' batches]; [done|]. by apply Hex2.
Qed.

Lemma search_news_run (E : env) (query : string) (w : world) :
  initialized w →
  search_news E query w
  = match encoder_encode E (PStr query) with
    | Ok v =>
        match client w !! "Press news" with
        | Some c => (w, Ok (search_collection c v 5))
        | None => (w, Raise (ValueError "Collection Press news not found"))
        end
    | Raise e => (w, Raise e)
    end.
Proof.
  intros Hi. unfold search_news, bind. rewrite encode_run by done.
  destruct (encoder_encode E (PStr query)); [|done].
  by rewrite search_run.
Qed.

(** C8: on an object fresh from its constructor, after any calls of
    [embed_and_store_news] (one per batch of articles), a search with any
    query text returns at most 5 results, each with the payload (title and
    url) of an article that one of the calls has upserted; and after at
    least one call the search does return, whenever the encoder accepts the
    query. *)
Theorem search_returns_upserted_articles (E : env)
    (config_path secrets_path : string) (w0 : world)
    (batches : list (list (pyval * pyval))) (query : string) :
  __init__ E config_path secrets_path fresh_world = (w0, Ok tt) →
  let w := embed_batches E batches w0 in
  (∀ w' results,
     search_news E query w = (w', Ok results) →
     (length results ≤ 5)%nat
     ∧ ∀ res, res ∈ results →
         ∃ article,
           article ∈ mjoin (upserted E <$> batches)
           ∧ article ∈ mjoin batches
           ∧ payload res = article_payload article)
  ∧ (batches ≠ [] →
     ∀ v, encoder_encode E (PStr query) = Ok v →
       ∃ results, search_news E query w = (w, Ok results)).
Proof.
  intros Hinit w.
  pose proof (init_quiet _ _ _ _ Hinit) as [Hi0 _].
  assert (stored_from [] w0) as Hst0.
  { intros name c p. by rewrite (init_client_empty _ _ _ _ Hinit). }
  destruct (embed_batches_stored E batches [] w0 Hi0 Hst0)
    as (Hi & Hst & Hex).
  fold w in Hi, Hst, Hex. simpl in Hst.
  rewrite (search_news_run E query w Hi).
  split.
  - intros w' results.
    destruct (encoder_encode E (PStr query)) as [v|]; [|done].
    destruct (client w !! "Press news") as [c|] eqn:Hc; [|done].
    intros [= <- <-]. split; [apply search_collection_length|].
    intros res (p & Hp & ->)%search_collection_spec.
    destruct (Hst _ _ _ Hc Hp) as (article & Ha & Hpay).
    exists article. split; [done|]. split; [|done].
    apply list_elem_of_join in Ha as (l & Ha & Hl).
    apply list_elem_of_fmap in Hl as (batch & -> & Hbatch).
    apply list_elem_of_join. exists batch. split; [|done].
    clear -Ha. induction batch as [|a batch IH]; simpl in *; [done|].
    destruct (encodable E a); [|by apply elem_of_nil in Ha].
    apply elem_of_cons in Ha as [->|Ha]; [by left|]. right. by apply IH.
  - intros Hne v ->. destruct (Hex Hne) as [c ->]. eauto.
Qed.

(** ** An empty feed *)

Lemma stored_points_with_collection (E : env) (w : world) (name : string) :
  stored_points (with_collection E w) name = stored_points w name.
Proof.
  unfold with_collection, collection_exists.
  case_bool_decide as Hex; [done|].
  unfold stored_points. rewrite client_set_client.
  destruct (decide (name = "Press news")) as [->|Hne].
  - rewrite lookup_insert_eq. simpl.
    destruct (client w !! "Press news") eqn:Hc; [|done].
    exfalso. apply Hex. eauto.
  - by rewrite lookup_insert_ne.
Qed.

(** C6, as the code has it: when the news endpoint answers 404,
    [retrieve_news] returns the empty list, and the call
    [embed_and_store_news([])] that follows upserts no point (the points of
    every collection are as before and no identifier is drawn), but it is a
    no-op only if the collection is already there: otherwise it creates the
    collection, empty, so the collection exists after the call in both
    cases. *)
Theorem empty_feed_creates_collection_only (E : env) (w : world)
    (company_name template url : string) (r : response) :
  initialized w →
  self_dict w !! "news_endpoint" = Some (AVal (PStr template)) →
  str_format E template company_name = Ok url →
  requests_get E (PStr url) = Ok r →
  status_code r = 404 →
  let w1 := (send (GET (PStr url)) w).1 in
  let w2 := (embed_and_store_news E [] w1).1 in
  retrieve_news E company_name w = (w1, Ok [])
  ∧ (embed_and_store_news E [] w1).2 = Ok tt
  ∧ (∀ name, stored_points w2 name = stored_points w1 name)
  ∧ uuid_draws w2 = uuid_draws w1
  ∧ collection_exists w2 "Press news" = true
  ∧ (collection_exists w1 "Press news" = true → w2 = w1)
  ∧ (collection_exists w1 "Press news" = false →
       client w2
       = <["Press news" := mk_collection (embedding_dimension E) COSINE []]>
           (client w1)).
Proof.
  intros Hi Hattr Hfmt Hget Hstatus w1 w2.
  assert (initialized w1) as Hi1 by (by apply (initialized_ext w)).
  split.
  { rewrite (retrieve_news_answered E w company_name template url r)
      by done.
    rewrite bool_decide_eq_false_2; [done|]. rewrite Hstatus. lia. }
  unfold w2. rewrite (embed_and_store_news_run E [] w1 Hi1).
  change (for_each [] (embed_article E) (with_collection E w1))
    with (with_collection E w1, @Ok unit tt).
  split; [done|]. cbn [fst].
  split; [apply stored_points_with_collection|].
  unfold with_collection.
  destruct (collection_exists w1 "Press news") eqn:Hex.
  - by rewrite Hex.
  - unfold collection_exists at 1. rewrite client_set_client.
    rewrite lookup_insert_eq. by repeat split.
Qed.

(** C6 as the specification states it fails: the object is fresh from its
    constructor, the news endpoint answers 404 and [retrieve_news] returns
    the empty list; before [embed_and_store_news([])] there is no collection,
    after it the collection exists. *)
Lemma empty_feed_collection_is_created :
  let w1 := (retrieve_news Sample.env_404 "AAPL" Sample.analyzer).1 in
  let w2 := (embed_and_store_news Sample.env_404 [] w1).1 in
  (retrieve_news Sample.env_404 "AAPL" Sample.analyzer).2 = Ok []
  ∧ collection_exists w1 "Press news" = false
  ∧ collection_exists w2 "Press news" = true
  ∧ w2 ≠ w1.
Proof.
  repeat split; try (vm_compute; reflexivity).
  intros Heq. apply (f_equal (λ w, collection_exists w "Press news")) in Heq.
  vm_compute in Heq. discriminate Heq.
Qed.

(** ** The sample run

    Each theorem above that has a premise, run on the sample environment. *)

Lemma sample_constructed :
  __init__ Sample.env_ok "config.yaml" "secrets.yaml" fresh_world
  = (Sample.analyzer, Ok tt).
Proof. vm_compute. reflexivity. Qed.

Lemma sample_initialized : initialized Sample.analyzer.
Proof. eapply init_quiet, sample_constructed. Qed.

(** The scenario of the specification: three current rows and one
    historical row carry the publication date. *)
Lemma analyze_positions_filters_by_date_sample :
  ∃ aggregate,
    analyze_positions Sample.current Sample.historical Sample.downloaded
    = (Sample.downloaded,
       Ok ([Sample.row "Alpha Capital" 0.75 Sample.jan10 "ENI" "IT0003132476";
            Sample.row "Gamma Fund" 0.5 Sample.jan10 "ENI S.P.A."
              "IT0003132476";
            Sample.row "Alpha Capital" 0.625 Sample.jan10 "SAIPEM"
              "IT0005495657"],
           [Sample.row "Delta LLP" 0.375 Sample.jan10 "ENI" "IT0003132476"],
           aggregate)).
Proof.
  destruct (analyze_positions_filters_by_date Sample.downloaded
              Sample.current Sample.historical Sample.jan10 eq_refl)
    as (new_positions & closed_positions & aggregate & Hrun & -> & -> & _).
  exists aggregate. exact Hrun.
Defined.

(** The group of ENI: two holders, in row order, and the issuer name of the
    first of the two rows. *)
Lemma analyze_positions_aggregates_by_isin_sample :
  ∃ new_positions closed_positions aggregate group,
    analyze_positions Sample.current Sample.historical Sample.downloaded
    = (Sample.downloaded, Ok (new_positions, closed_positions, aggregate))
    ∧ filter (λ a, agg_isin a = "IT0003132476") aggregate = [group]
    ∧ agg_holders group = [Some "Alpha Capital"; Some "Gamma Fund"]
    ∧ agg_percentages group = [Some 0.75%float; Some 0.5%float]
    ∧ agg_issuer group = Some "ENI".
Proof.
  destruct (analyze_positions_aggregates_by_isin Sample.downloaded
              Sample.current Sample.historical "IT0003132476")
    as (new_positions & closed_positions & aggregate & group
        & Hrun & Hgroup & _ & Hholders & Hpercentages & Hissuer & _).
  - by eexists.
  - eexists. split; [by left|done].
  - exists new_positions, closed_positions, aggregate, group.
    split; [exact Hrun|]. split; [exact Hgroup|].
    split; [exact Hholders|]. split; [exact Hpercentages|].
    eapply (Hissuer [] _ _ "ENI"); [reflexivity|constructor|done|done].
Defined.

(** The same tables and date on an object that has printed and sent more. *)
Lemma analyze_positions_pure_sample :
  (analyze_positions Sample.current Sample.historical Sample.downloaded).2
  = (analyze_positions Sample.current Sample.historical
       (print "noise" (send (GET PNone) Sample.downloaded).1).1).2.
Proof.
  exact (proj1 (proj2 (analyze_positions_pure Sample.downloaded
                         (print "noise" (send (GET PNone) Sample.downloaded).1).1
                         Sample.current Sample.historical eq_refl))).
Defined.

(** The regulator's site cannot be reached. *)
Lemma download_file_catches_request_error_sample :
  (download_file Sample.env_offline Sample.analyzer).2
  = Raise (UnboundLocalError "current")
  ∧ stdout (download_file Sample.env_offline Sample.analyzer).1
    = ["An error occurred: Max retries exceeded"].
Proof.
  pose proof (download_file_catches_request_error Sample.env_offline
                Sample.analyzer (PStr Sample.sheet_url)
                Sample.connection_error eq_refl eq_refl
                (or_introl eq_refl)) as H.
  cbv zeta in H. destruct H as (_ & _ & -> & _). by split.
Defined.

(** The date cell of the sheet does not hold a date. *)
Lemma download_file_parse_error_writes_nothing_sample :
  filesystem (download_file Sample.env_bad_date Sample.analyzer).1
  = filesystem Sample.analyzer
  ∧ (download_file Sample.env_bad_date Sample.analyzer).2
    = Raise (ValueError "time data does not match format").
Proof.
  destruct (download_file_parse_error_writes_nothing Sample.env_bad_date
              Sample.analyzer (PStr Sample.sheet_url) Sample.sheet_response
              [Byte.x50; Byte.x4b]
              (ValueError "time data does not match format")
              eq_refl eq_refl eq_refl eq_refl) as [Hfs Hexn].
  - right. exists Sample.current. split; [done|].
    right. exists Sample.historical. split; [done|].
    right. by exists (PStr "n/a").
  - split; [exact Hfs|]. by apply Hexn.
Defined.

(** The news endpoint answers 404. *)
Lemma retrieve_news_non_200_sample :
  (retrieve_news Sample.env_404 "AAPL" Sample.analyzer).2 = Ok [].
Proof.
  rewrite (retrieve_news_non_200 Sample.env_404 Sample.analyzer "AAPL"
             "https://news.example/query?tickers={}" Sample.news_url
             Sample.not_found eq_refl eq_refl eq_refl); [done|].
  simpl. lia.
Defined.

(** The news endpoint answers with a feed of two entries. *)
Lemma retrieve_news_maps_feed_sample :
  (retrieve_news Sample.env_ok "AAPL" Sample.analyzer).2
  = Ok Sample.articles.
Proof.
  destruct (retrieve_news_maps_feed Sample.env_ok Sample.analyzer "AAPL"
              "https://news.example/query?tickers={}" Sample.news_url
              Sample.news_response Sample.feed_body Sample.entries
              eq_refl eq_refl eq_refl eq_refl eq_refl eq_refl) as [Hall _].
  destruct (Hall Sample.articles) as [-> _]; [|done].
  repeat constructor; by eexists.
Defined.

(** With that feed the prompt gets built, and the run stops at the
    inference call. *)
Lemma sample_prompt :
  (rag_prompt Sample.env_ok "AAPL" Sample.analyzer).2
  = Ok (String.concat newline
          ["Based on the following news articles, provide an explanation on why there might be short positions in AAPL:";
           ""; "Title: Apple slides"; "Title: Apple slides"; ""; ""]).
Proof. vm_compute. reflexivity. Qed.

Lemma inference_endpoint_never_assigned_sample :
  (retrieve_news_with_rag Sample.env_ok "AAPL" Sample.analyzer).2
  = Raise (AttributeError "llm_inference_endpoint")
  ∧ posts (retrieve_news_with_rag Sample.env_ok "AAPL" Sample.analyzer).1
    = [].
Proof.
  destruct (inference_endpoint_never_assigned Sample.env_ok Sample.analyzer
              "AAPL") as (_ & _ & Hposts & Hrun).
  - exact (reach_init _ _ _ _ sample_constructed).
  - split; [|exact Hposts].
    pose proof sample_prompt as Hprompt.
    destruct (rag_prompt Sample.env_ok "AAPL" Sample.analyzer)
      as [w1 [prompt|e]]; [|discriminate Hprompt].
    by rewrite (Hrun w1 prompt eq_refl).
Defined.

(** After a 404 the collection is there and holds no point. *)
Lemma empty_feed_creates_collection_only_sample :
  let w1 := (retrieve_news Sample.env_404 "AAPL" Sample.analyzer).1 in
  let w2 := (embed_and_store_news Sample.env_404 [] w1).1 in
  stored_points w2 "Press news" = [] ∧ uuid_draws w2 = 0%nat.
Proof.
  pose proof (empty_feed_creates_collection_only Sample.env_404
                Sample.analyzer "AAPL"
                "https://news.example/query?tickers={}" Sample.news_url
                Sample.not_found sample_initialized eq_refl eq_refl eq_refl
                eq_refl) as H.
  cbv zeta in H. destruct H as (Hnews & _ & Hpoints & Hdraws & _).
  rewrite Hnews. cbn [fst]. rewrite Hpoints, Hdraws.
  split; vm_compute; reflexivity.
Defined.

(** One batch of two articles, then the search of the program. *)
Lemma search_returns_upserted_articles_sample :
  ∃ results,
    search_news Sample.env_ok "Short selling"
      (embed_batches Sample.env_ok [Sample.articles] Sample.analyzer)
    = (embed_batches Sample.env_ok [Sample.articles] Sample.analyzer,
       Ok results)
    ∧ (length results ≤ 5)%nat
    ∧ ∀ res, res ∈ results →
        ∃ article, article ∈ Sample.articles
                   ∧ payload res = article_payload article.
Proof.
  destruct (search_returns_upserted_articles Sample.env_ok "config.yaml"
              "secrets.yaml" Sample.analyzer [Sample.articles]
              "Short selling" sample_constructed) as [Hres Hrun].
  destruct (Hrun ltac:(done) _ eq_refl) as [results Hresults].
  exists results. split; [exact Hresults|].
  destruct (Hres _ _ Hresults) as [Hlen Hpay]. split; [exact Hlen|].
  intros res Hin. destruct (Hpay res Hin) as (article & _ & Ha & Heq).
  exists article. split; [|exact Heq].
  by apply list_elem_of_join in Ha as (l & Hl & ->%list_elem_of_singleton).
Defined.

(** * Further properties *)

(** ** The aggregate of [analyze_positions] *)

Lemma sum_list_with_fmap {A B} (f : B → nat) (g : A → B) (l : list A) :
  sum_list_with f (g <$> l) = sum_list_with (f ∘ g) l.
Proof. induction l as [|x l IH]; simpl; [done|]. by f_equal. Qed.

Lemma sum_list_with_eq {A} (f g : A → nat) (l : list A) :
  (∀ x, f x = g x) → sum_list_with f l = sum_list_with g l.
Proof.
  intros Hfg. induction l as [|x l IH]; simpl; [done|]. by rewrite Hfg, IH.
Qed.

Lemma sum_group_rows_cons (r : position_row) (df : table)
    (keys : list string) :
  NoDup keys →
  sum_list_with (λ k, length (group_rows (r :: df) k)) keys
  = ((match isin r with
      | Some x => if decide (x ∈ keys) then 1 else 0
      | None => 0
      end) + sum_list_with (λ k, length (group_rows df k)) keys)%nat.
Proof.
  unfold group_rows.
  induction 1 as [|k keys Hnotin Hnd IH]; simpl.
  { by destruct (isin r). }
  rewrite IH, filter_cons. clear IH.
  destruct (isin r) as [x|] eqn:Hx; repeat case_decide; simplify_eq;
    simpl; try lia; exfalso;
    try match goal with
    | H : ¬ _ |- _ => apply H; first [assumption | by left | by right]
    end.
  match goal with
  | H : _ ∈ _ :: _ |- _ => apply elem_of_cons in H as [->|?]; done
  end.
Qed.

Lemma sum_group_rows (df : table) (keys : list string) :
  NoDup keys →
  (∀ r k, r ∈ df → isin r = Some k → k ∈ keys) →
  sum_list_with (λ k, length (group_rows df k)) keys
  = length (keyed_rows df).
Proof.
  intros Hnd. unfold keyed_rows.
  induction df as [|r df IH]; intros Hcover.
  { clear. induction keys as [|k keys IH]; simpl; [done|]. exact IH. }
  rewrite sum_group_rows_cons, filter_cons by done.
  rewrite IH by (intros r' k Hr'; apply Hcover; by right).
  destruct (isin r) as [x|] eqn:Hx.
  - rewrite decide_True by (apply (Hcover r); [by left|done]).
    rewrite decide_True by by eexists. done.
  - rewrite decide_False; [done|]. by intros [? [=]].
Qed.

Lemma analyze_positions_ok_inv (current historical : table) (w w' : world)
    (new_positions closed_positions : table)
    (aggregate : list asset_aggregate) :
  analyze_positions current historical w
  = (w', Ok (new_positions, closed_positions, aggregate)) →
  w' = w
  ∧ aggregate = groupby_isin_agg current
  ∧ ∃ a, self_dict w !! "pubblication_date" = Some a
         ∧ new_positions = getitem_mask current (date_mask current a)
         ∧ closed_positions
           = getitem_mask historical (date_mask historical a).
Proof.
  rewrite analyze_positions_unfold.
  destruct (self_dict w !! "pubblication_date") as [a|]; [|done].
  intros [= <- <- <- <-]. do 2 (split; [done|]). by exists a.
Qed.

(** X1: the aggregate has one row per distinct ISIN of the current table, in
    increasing order of ISIN (the default [sort=True] of [groupby]); a
    missing ISIN is no key. *)
Theorem aggregate_keys_sorted_distinct (current historical : table)
    (w w' : world) (new_positions closed_positions : table)
    (aggregate : list asset_aggregate) :
  analyze_positions current historical w
  = (w', Ok (new_positions, closed_positions, aggregate)) →
  Sorted string_le (agg_isin <$> aggregate)
  ∧ NoDup (agg_isin <$> aggregate)
  ∧ ∀ key, key ∈ agg_isin <$> aggregate
           ↔ ∃ r, r ∈ current ∧ isin r = Some key.
Proof.
  intros (_ & -> & _)%analyze_positions_ok_inv.
  assert (agg_isin <$> groupby_isin_agg current = group_keys current) as ->.
  { unfold groupby_isin_agg. rewrite <- list_fmap_compose.
    apply list_fmap_id. }
  split; [apply Sorted_merge_sort, _|].
  split; [apply NoDup_group_keys|]. apply elem_of_group_keys.
Qed.

(** X2: the groups partition the rows that carry an ISIN: the holder lists have
    together as many entries as there are such rows, no group is empty,
    holders and percentages of a group go in pairs, and a table without any
    ISIN (an empty table among them) gives an empty aggregate. *)
Theorem aggregate_partitions_rows (current historical : table)
    (w w' : world) (new_positions closed_positions : table)
    (aggregate : list asset_aggregate) :
  analyze_positions current historical w
  = (w', Ok (new_positions, closed_positions, aggregate)) →
  sum_list_with (λ g, length (agg_holders g)) aggregate
  = length (keyed_rows current)
  ∧ Forall (λ g, agg_holders g ≠ []
                 ∧ length (agg_percentages g) = length (agg_holders g))
      aggregate
  ∧ (Forall (λ r, isin r = None) current → aggregate = []).
Proof.
  intros (_ & -> & _)%analyze_positions_ok_inv. unfold groupby_isin_agg.
  split.
  { rewrite sum_list_with_fmap.
    rewrite (sum_list_with_eq _ (λ k, length (group_rows current k)))
      by (intros k; apply length_fmap).
    apply sum_group_rows; [apply NoDup_group_keys|].
    intros r k Hr Hk. apply elem_of_group_keys. eauto. }
  split.
  - apply Forall_fmap, Forall_forall. intros key Hkey. simpl.
    rewrite !length_fmap. split; [|done].
    apply elem_of_group_keys in Hkey as (r & Hr & Hisin).
    intros Hnil%fmap_nil_inv.
    assert (r ∈ group_rows current key) as Hin
      by (by apply list_elem_of_filter).
    rewrite Hnil in Hin. by apply elem_of_nil in Hin.
  - intros Hnone.
    assert (group_keys current = []) as ->; [|done].
    apply elem_of_nil_inv. intros key (r & Hr & Hisin)%elem_of_group_keys.
    rewrite Forall_forall in Hnone. by rewrite (Hnone r Hr) in Hisin.
Qed.

(** ** [download_file] *)

Lemma chunks_upto_join (n : nat) (fuel : nat) :
  ∀ bytes : list Byte.byte,
    (0 < n)%nat → (length bytes ≤ fuel)%nat →
    mjoin (chunks_upto fuel n bytes) = bytes.
Proof.
  induction fuel as [|fuel IH]; intros bytes Hn Hlen.
  { destruct bytes; [done|]. simpl in Hlen. lia. }
  destruct bytes as [|b bytes]; [done|].
  change (take n (b :: bytes) ++ mjoin (chunks_upto fuel n (drop n (b :: bytes)))
          = b :: bytes).
  rewrite IH; [apply take_drop|done|].
  rewrite length_drop. simpl in *. lia.
Qed.

Lemma iter_content_join (bytes : list Byte.byte) :
  mjoin (iter_content 8192 bytes) = bytes.
Proof. apply chunks_upto_join; [|done]. compute. lia. Qed.

Lemma try_except_ok {Σ A} (m : M Σ A) catches (h : exn → M Σ A) σ σ' a :
  m σ = (σ', Ok a) → try_except m catches h σ = (σ', Ok a).
Proof. intros H. unfold try_except. by rewrite H. Qed.

Lemma try_except_propagates {Σ A} (m : M Σ A) catches (h : exn → M Σ A)
    σ σ' e :
  m σ = (σ', Raise e) → catches e = false →
  try_except m catches h σ = (σ', Raise e).
Proof. intros H Hc. unfold try_except. by rewrite H, Hc. Qed.

Lemma on_world_run {F A} (m : M world A) (f : F) (w w' : world)
    (r : result A) :
  m w = (w', r) → on_world m (f, w) = ((f, w'), r).
Proof. intros H. unfold on_world. simpl. by rewrite H. Qed.

(** The loop of lines 64-65 appends the chunks to the open file. *)
Lemma write_chunks_run {F} (path : string) (chunks : list (list Byte.byte)) :
  ∀ (f : F) (w : world) (old : list Byte.byte),
    filesystem w !! path = Some old →
    for_each chunks
      (λ chunk, on_world (write_file path (λ old, old ++ chunk))) (f, w)
    = ((f, mk_world (self_dict w) (stdout w)
             (<[path := old ++ mjoin chunks]> (filesystem w))
             (sent w) (uuid_draws w)), Ok tt).
Proof.
  induction chunks as [|chunk chunks IH]; intros f w old Hold.
  { simpl. unfold ret. rewrite app_nil_r, insert_id by done. by destruct w. }
  simpl.
  erewrite run_bind_ok; [|by apply on_world_run].
  erewrite IH; [|by apply lookup_insert_eq].
  simpl. rewrite Hold. simpl.
  by rewrite insert_insert_eq, (assoc_L (++)).
Qed.

(** Runs the next statement of a sequence, [tac] showing what it does. *)
Ltac run_next tac := erewrite run_bind_ok; [|solve [tac]].

Ltac run_getattr H :=
  run_next ltac:(apply on_world_run;
                 erewrite run_bind_ok; [|apply getattr_lookup, H];
                 reflexivity).

Ltac run_lifted H := run_next ltac:(unfold lift; by rewrite H).

Lemma download_try_saves (E : env) (w : world) (url : pyval) (r : response)
    (bytes : list Byte.byte) (current historical : table) (date_str : pyval)
    (D : datetime) (destfile : string) :
  self_dict w !! "url" = Some (AVal url) →
  self_dict w !! "destfile" = Some (AVal (PStr destfile)) →
  requests_get E url = Ok r →
  raise_for_status r = Ok tt →
  content r = Ok bytes →
  read_excel_positions E bytes " Correnti - Current " = Ok current →
  read_excel_positions E bytes " Storiche - Historic " = Ok historical →
  read_excel_date_cell E bytes " Pubb. Data - Pubb. Date " = Ok date_str →
  strptime E date_str = Ok D →
  open_wb E (download_path E destfile) = None →
  download_try E ("pnc_consob_" +:+ strftime_now E +:+ ".xlsx")
    (mk_locals None None, w)
  = ((mk_locals (Some current) (Some historical),
      mk_world (<["pubblication_date" := ADate D]> (self_dict w))
        (stdout w
           ++ ["File downloaded successfully and saved to " +:+ destfile])
        (<[download_path E destfile := bytes]> (filesystem w))
        (sent w ++ [GET url]) (uuid_draws w)), Ok tt).
Proof.
  intros Hurl Hdest Hget Hstatus Hbytes Hcur Hhist Hcell Hdate Hopen.
  unfold download_try. apply try_except_ok.
  run_getattr Hurl.
  run_next ltac:(by apply on_world_run).
  run_lifted Hget. run_lifted Hstatus. run_lifted Hbytes.
  run_lifted Hcur. run_next ltac:(reflexivity).
  run_lifted Hhist. run_next ltac:(reflexivity).
  run_lifted Hcell. run_lifted Hdate.
  run_next ltac:(by apply on_world_run).
  assert (self_dict (setattr "pubblication_date" (ADate D)
                       (send (GET url) w).1).1 !! "destfile"
          = Some (AVal (PStr destfile))) as Hdest'.
  { simpl. by rewrite lookup_insert_ne. }
  run_getattr Hdest'.
  cbv zeta. fold (download_path E destfile). rewrite Hopen.
  run_next ltac:(by apply on_world_run).
  erewrite run_bind_ok;
    [|apply write_chunks_run; simpl; apply lookup_insert_eq].
  run_getattr Hdest'.
  erewrite on_world_run; [|reflexivity].
  simpl. by rewrite iter_content_join, insert_insert_eq.
Qed.

Lemma download_file_run_saved (E : env) (w : world) (url : pyval)
    (bytes : list Byte.byte) (current historical : table) (D : datetime)
    (destfile : string) :
  self_dict w !! "url" = Some (AVal url) →
  self_dict w !! "destfile" = Some (AVal (PStr destfile)) →
  fetched E url bytes current historical D →
  open_wb E (download_path E destfile) = None →
  download_file E w
  = (mk_world (<["pubblication_date" := ADate D]> (self_dict w))
       (stdout w
          ++ ["File downloaded successfully and saved to " +:+ destfile])
       (<[download_path E destfile := bytes]> (filesystem w))
       (sent w ++ [GET url]) (uuid_draws w),
     Ok (current, historical)).
Proof.
  intros Hurl Hdest [(r & Hget & Hstatus & Hbytes) Hcur Hhist
                       (date_str & Hcell & Hdate)] Hopen.
  unfold download_file, call. cbv zeta.
  erewrite run_bind_ok; [|by eapply download_try_saves]. done.
Qed.

Lemma download_file_run_unopened (E : env) (w : world) (url : pyval)
    (bytes : list Byte.byte) (current historical : table) (D : datetime)
    (e : exn) :
  self_dict w !! "url" = Some (AVal url) →
  fetched E url bytes current historical D →
  cannot_open E w e →
  is_request_exception e = false →
  download_file E w
  = (mk_world (<["pubblication_date" := ADate D]> (self_dict w))
       (stdout w) (filesystem w) (sent w ++ [GET url]) (uuid_draws w),
     Raise e).
Proof.
  intros Hurl [(r & Hget & Hstatus & Hbytes) Hcur Hhist
                 (date_str & Hcell & Hdate)] Hopen Hexn.
  unfold download_file, call. cbv zeta.
  erewrite run_bind_raise; cycle 1.
  { unfold download_try. apply try_except_propagates; [|done].
    run_getattr Hurl.
    run_next ltac:(by apply on_world_run).
    run_lifted Hget. run_lifted Hstatus. run_lifted Hbytes.
    run_lifted Hcur. run_next ltac:(reflexivity).
    run_lifted Hhist. run_next ltac:(reflexivity).
    run_lifted Hcell. run_lifted Hdate.
    run_next ltac:(by apply on_world_run).
    destruct Hopen as [(v & Hdest & Hv & ->)|(destfile & Hdest & Hopen)].
    - apply run_bind_raise, on_world_run.
      erewrite run_bind_ok;
        [|apply getattr_lookup; simpl; by rewrite lookup_insert_ne].
      unfold lift. destruct v; try done. by destruct (Hv s).
    - erewrite run_bind_ok.
      2:{ apply on_world_run.
          erewrite run_bind_ok;
            [|apply getattr_lookup; simpl; by rewrite lookup_insert_ne].
          reflexivity. }
      cbv zeta. fold (download_path E destfile). by rewrite Hopen. }
  done.
Qed.

(** X3: when the sheet is fetched and parsed and the file can be opened,
    [download_file] returns the two tables that were read; the destination
    directory then holds a file [pnc_consob_<date>.xlsx] whose content is
    the content of the response, byte for byte, whatever that file held
    before, and no other file has changed; [self.pubblication_date] holds
    the parsed date and no other attribute has changed; the success message
    is the one line printed and one GET has been sent. *)
Theorem download_file_saves_sheet (E : env) (w : world) (url : pyval)
    (bytes : list Byte.byte) (current historical : table) (D : datetime)
    (destfile : string) :
  self_dict w !! "url" = Some (AVal url) →
  self_dict w !! "destfile" = Some (AVal (PStr destfile)) →
  fetched E url bytes current historical D →
  open_wb E (download_path E destfile) = None →
  let w' := (download_file E w).1 in
  (download_file E w).2 = Ok (current, historical)
  ∧ filesystem w' !! download_path E destfile = Some bytes
  ∧ (∀ path, path ≠ download_path E destfile →
       filesystem w' !! path = filesystem w !! path)
  ∧ self_dict w' !! "pubblication_date" = Some (ADate D)
  ∧ (∀ name, name ≠ "pubblication_date" →
       self_dict w' !! name = self_dict w !! name)
  ∧ stdout w'
    = stdout w ++ ["File downloaded successfully and saved to " +:+ destfile]
  ∧ sent w' = sent w ++ [GET url].
Proof.
  intros Hurl Hdest Hfetched Hopen.
  rewrite (download_file_run_saved E w url bytes current historical D
             destfile) by done.
  cbn [fst snd filesystem self_dict stdout sent].
  split; [done|]. split; [apply lookup_insert_eq|].
  split; [by intros path Hpath; apply lookup_insert_ne|].
  split; [apply lookup_insert_eq|].
  split; [by intros name Hname; apply lookup_insert_ne|]. done.
Qed.

(** X4: when the sheet is fetched and parsed but the file cannot be opened (the
    configured destination is not a string, or [open] raises), the exception
    leaves [download_file]; no file is written and nothing is printed, but
    [self.pubblication_date] has already been assigned the parsed date. *)
Theorem download_file_cannot_open (E : env) (w : world) (url : pyval)
    (bytes : list Byte.byte) (current historical : table) (D : datetime)
    (e : exn) :
  self_dict w !! "url" = Some (AVal url) →
  fetched E url bytes current historical D →
  cannot_open E w e →
  is_request_exception e = false →
  let w' := (download_file E w).1 in
  (download_file E w).2 = Raise e
  ∧ filesystem w' = filesystem w
  ∧ stdout w' = stdout w
  ∧ self_dict w' !! "pubblication_date" = Some (ADate D).
Proof.
  intros Hurl Hfetched Hopen Hexn.
  rewrite (download_file_run_unopened E w url bytes current historical D e)
    by done.
  cbn [fst snd filesystem self_dict stdout].
  do 3 (split; [done|]). apply lookup_insert_eq.
Qed.

(** X5: download, then analysis, as [execute] chains them: when the sheet is
    fetched, parsed and saved, the rows the analysis selects are the rows of
    the tables just read whose Position Date is the publication date of that
    same sheet, and the aggregate is that of the current table just read. *)
Theorem download_then_analyze (E : env) (w : world) (url : pyval)
    (bytes : list Byte.byte) (current historical : table) (D : datetime)
    (destfile : string) :
  self_dict w !! "url" = Some (AVal url) →
  self_dict w !! "destfile" = Some (AVal (PStr destfile)) →
  fetched E url bytes current historical D →
  open_wb E (download_path E destfile) = None →
  (tables <- download_file E ;; analyze_positions tables.1 tables.2) w
  = ((download_file E w).1,
     Ok (filter (λ r, position_date r = Some D) current,
         filter (λ r, position_date r = Some D) historical,
         groupby_isin_agg current)).
Proof.
  intros Hurl Hdest Hfetched Hopen.
  pose proof (download_file_run_saved E w url bytes current historical D
                destfile Hurl Hdest Hfetched Hopen) as Hrun.
  rewrite (run_bind_ok _ _ _ _ _ Hrun), Hrun.
  rewrite analyze_positions_unfold. cbn [fst snd self_dict].
  rewrite lookup_insert_eq. simpl. by rewrite !getitem_mask_series_eq.
Qed.

(** X6: an object fresh from its constructor has no publication date: whatever
    the tables, [analyze_positions] called before [download_file] raises
    [AttributeError] and returns nothing. *)
Theorem analyze_positions_before_download (E : env)
    (config_path secrets_path : string) (w : world)
    (current historical : table) :
  __init__ E config_path secrets_path fresh_world = (w, Ok tt) →
  analyze_positions current historical w
  = (w, Raise (AttributeError "pubblication_date")).
Proof.
  intros (? & ? & ? & ? & ? & ? & ->)%init_world.
  by rewrite analyze_positions_unfold.
Qed.

Lemma download_file_run_request_error (E : env) (w : world) (url : pyval)
    (e : exn) :
  self_dict w !! "url" = Some (AVal url) →
  is_request_exception e = true →
  request_fails E url e →
  download_file E w
  = (mk_world (self_dict w) (stdout w ++ ["An error occurred: " +:+ exn_str e])
       (filesystem w) (sent w ++ [GET url]) (uuid_draws w),
     Raise (UnboundLocalError "current")).
Proof.
  intros Hurl Hexn Hfail. unfold download_file, call. cbv zeta.
  erewrite run_bind_ok; cycle 1.
  { unfold download_try, try_except.
    run_getattr Hurl.
    run_next ltac:(by apply on_world_run).
    destruct Hfail as [Hget|(r & Hget & Hstatus)].
    - erewrite run_bind_raise; [|unfold lift; by rewrite Hget].
      rewrite Hexn. by apply on_world_run.
    - run_lifted Hget.
      erewrite run_bind_raise; [|unfold lift; by rewrite Hstatus].
      rewrite Hexn. by apply on_world_run. }
  done.
Qed.

(** X7: when the download gets no usable answer, [execute] stops at the [return]
    of [download_file] with [UnboundLocalError]: the analysis does not run,
    no news request is sent (the one GET is that of the sheet), the object
    is unchanged and the one line printed is the error message. *)
Theorem execute_stops_at_failed_download (E : env) (w : world) (url : pyval)
    (e : exn) :
  self_dict w !! "url" = Some (AVal url) →
  is_request_exception e = true →
  request_fails E url e →
  let w' := (execute E w).1 in
  (execute E w).2 = Raise (UnboundLocalError "current")
  ∧ sent w' = sent w ++ [GET url]
  ∧ self_dict w' = self_dict w
  ∧ stdout w' = stdout w ++ ["An error occurred: " +:+ exn_str e]
  ∧ filesystem w' = filesystem w.
Proof.
  intros Hurl Hexn Hfail. unfold execute.
  by rewrite (run_bind_raise _ _ _ _ _
                (download_file_run_request_error E w url e Hurl Hexn Hfail)).
Qed.

(** ** The constructor *)


Lemma untouched_setattr name a : preserves untouched (setattr name a).
Proof. by intros w. Qed.

Lemma untouched_init E config_path secrets_path :
  preserves untouched (__init__ E config_path secrets_path).
Proof.
  unfold __init__. preserve_with ltac:(apply untouched_setattr).
Qed.



(** ** What a run prints *)

Section Ends.
Context {Σ : Type}.

Lemma ends_preserves {A} (P : Σ → Prop) (m : M Σ A) :
  preserves P m → ends P m P P.
Proof. intros Hm σ Hσ. specialize (Hm σ Hσ). by destruct (m σ).2. Qed.

Lemma ends_bind {A B} (P P' Q R : Σ → Prop) (m : M Σ A) (k : A → M Σ B) :
  ends P m P' R → (∀ a, ends P' (k a) Q R) → ends P (bind m k) Q R.
Proof.
  intros Hm Hk σ Hσ. specialize (Hm σ Hσ). unfold bind.
  destruct (m σ) as [σ' [a|e]]; simpl in *; [by apply Hk|done].
Qed.

Lemma ends_try_except {A} (P Q R' R : Σ → Prop) (m : M Σ A) catches
    (h : exn → M Σ A) :
  ends P m Q R' → (∀ e, ends R' (h e) Q R) → (∀ σ, R' σ → R σ) →
  ends P (try_except m catches h) Q R.
Proof.
  intros Hm Hh Hweak σ Hσ. specialize (Hm σ Hσ). unfold try_except.
  destruct (m σ) as [σ' [a|e]]; simpl in *; [done|].
  destruct (catches e); [by apply Hh|by apply Hweak].
Qed.

Lemma ends_raise {A} (P Q : Σ → Prop) (e : exn) : ends P (@raise Σ A e) Q P.
Proof. by intros σ. Qed.
End Ends.

Lemma said_setattr out name a : preserves (said out) (setattr name a).
Proof. by intros w. Qed.
Lemma said_send out r : preserves (said out) (send r).
Proof. by intros w. Qed.
Lemma said_write_file out path f : preserves (said out) (write_file path f).
Proof. by intros w. Qed.
Lemma said_draw_uuid out : preserves (said out) draw_uuid.
Proof. by intros w. Qed.

#[global] Hint Resolve said_setattr said_send said_write_file
  said_draw_uuid : preserves.

Lemma ends_print {F} (out : list string) (line : string) :
  ends (λ fw : F * world, said out fw.2) (on_world (print line))
    (λ fw, printed out 1 fw.2) (λ fw, said out fw.2).
Proof.
  intros [f w] Hw. unfold said in *. simpl in *.
  exists [line]. by rewrite Hw.
Qed.

(** A statement of a sequence that prints nothing, then the rest. *)
Ltac ends_silent :=
  eapply ends_bind; [apply ends_preserves; solve [preserve]|intros ?].

(** The [try] statement prints one line at most: the success message is the
    last statement of its body, the error message the only one of its
    handler. *)
Lemma download_try_prints (E : env) (filename : string)
    (out : list string) :
  ends (λ fw, said out fw.2) (download_try E filename)
    (λ fw, printed out 1 fw.2) (λ fw, printed out 1 fw.2).
Proof.
  unfold download_try.
  eapply (ends_try_except _ _ (λ fw, said out fw.2)).
  - repeat ends_silent. cbv zeta.
    destruct (open_wb E _); [apply ends_raise|].
    repeat ends_silent. apply ends_print.
  - intros e [f w] Hw. unfold said in *. simpl in *.
    exists ["An error occurred: " +:+ exn_str e]. by rewrite Hw.
  - intros [f w] Hw. unfold said in *. simpl in *.
    exists []. rewrite app_nil_r. split; [done|]. simpl. lia.
Qed.

Lemma download_file_prints (E : env) (w : world) :
  printed (stdout w) 1 (download_file E w).1.
Proof.
  unfold download_file, call, bind. cbv zeta.
  pose proof (download_try_prints E ("pnc_consob_" +:+ strftime_now E
                                       +:+ ".xlsx") (stdout w)
                (mk_locals None None, w) eq_refl) as Htry.
  destruct (download_try E _ (mk_locals None None, w)) as [[f w1] [[]|e]];
    simpl in *; [|done].
  unfold download_return, bind, load, ret. simpl.
  destruct (current_var f); simpl; [|done].
  by destruct (historical_var f).
Qed.

Lemma said_rag_prompt (E : env) (company_name : string) (out : list string) :
  preserves (said out) (rag_prompt E company_name).
Proof.
  unfold rag_prompt, retrieve_news, title_and_url, embed_and_store_news,
    create_collection, embed_article, search_news, search, upsert, encode,
    self_qdrant, self_collection_name, self_encoder.
  preserve.
Qed.

Lemma execute_run (E : env) (w : world) :
  quiet w →
  (∃ e, (execute E w).2 = Raise e)
  ∧ printed (stdout w) 1 (execute E w).1
  ∧ quiet (execute E w).1.
Proof.
  intros Hw. split; [by apply execute_raises|].
  split; [|by apply quiet_execute].
  pose proof (download_file_prints E w) as Hprinted.
  pose proof (quiet_download_file E w Hw) as Hw1.
  unfold execute, bind.
  destruct (download_file E w) as [w1 [tables|e]]; [|done].
  rewrite analyze_positions_unfold. simpl in *.
  destruct (self_dict w1 !! "pubblication_date"); [|done].
  destruct (retrieve_news_with_rag_run E "AAPL" w1 Hw1) as [Hstate [e He]].
  pose proof (said_rag_prompt E "AAPL" (stdout w1) w1 eq_refl) as Hsaid.
  destruct (retrieve_news_with_rag E "AAPL" w1) as [w2 [r|e']]; [done|].
  simpl in *. subst w2. unfold said in Hsaid.
  destruct Hprinted as (lines & Hlines & Hlen).
  exists lines. by rewrite Hsaid.
Qed.

(** X10: in every state of the program a call of [execute] ends in an exception:
    [display_results] is never reached.  At most one line is printed (the
    message of [download_file]), never the three tables, and no POST is
    sent. *)
Theorem execute_never_reports (E : env) (w : world) :
  reachable E w →
  (∃ e, (execute E w).2 = Raise e)
  ∧ (∃ lines, stdout (execute E w).1 = stdout w ++ lines
              ∧ (length lines ≤ 1)%nat)
  ∧ posts (execute E w).1 = [].
Proof.
  intros Hw%reachable_quiet.
  destruct (execute_run E w Hw) as (He & Hprinted & _ & Hposts). done.
Qed.

(** X11: the script of lines 180-181, whatever the files, the network, the sheet
    and the news are: the run ends in an exception, having printed at most
    one line and sent no POST. *)
Theorem script_never_reports (E : env) :
  (∃ e, (script E fresh_world).2 = Raise e)
  ∧ (length (stdout (script E fresh_world).1) ≤ 1)%nat
  ∧ posts (script E fresh_world).1 = [].
Proof.
  pose proof (untouched_init E "config.yaml" "secrets.yaml" fresh_world)
    as Hun.
  pose proof (init_quiet E "config.yaml" "secrets.yaml") as Hquiet.
  unfold script, bind.
  destruct (__init__ E "config.yaml" "secrets.yaml" fresh_world)
    as [w [[]|e]]; simpl in *.
  - destruct (Hun ltac:(done)) as (Hout & _ & _).
    destruct (execute_run E w (Hquiet w eq_refl))
      as (He & (lines & Hlines & Hlen) & _ & Hposts).
    split; [done|]. split; [|done].
    by rewrite Hlines, Hout.
  - destruct (Hun ltac:(done)) as (Hout & Hsent & _).
    split; [eauto|]. rewrite Hout. split; [simpl; lia|].
    unfold posts. by rewrite Hsent.
Qed.

(** ** [retrieve_news], off the main path *)

Lemma retrieve_news_requested (E : env) (w : world)
    (company_name url : string) :
  news_request E w company_name url →
  retrieve_news E company_name w
  = (response <- lift (requests_get E (PStr url)) ;;
     if bool_decide (status_code response = 200) then
       body <- lift (json response) ;;
       feed <- lift (py_get body "feed" (PList [])) ;;
       items <- lift (py_iter feed) ;;
       list_comp items title_and_url
     else ret []) (send (GET (PStr url)) w).1.
Proof.
  intros (template & Hattr & Hfmt). unfold retrieve_news.
  rewrite (run_bind_ok _ _ w w template).
  2:{ by rewrite (run_bind_ok _ _ _ _ _ (getattr_lookup _ _ _ Hattr)). }
  run_lifted Hfmt. by run_next ltac:(reflexivity).
Qed.

(** X12: [retrieve_news] catches nothing.  An endpoint that is no string (a
    configuration without [news_endpoint]) or that does not format raises
    before any request; an exception of the GET, of the JSON decoding of a
    200 answer, a body that is no object and a feed that cannot be iterated
    raise after the one request; in each case the exception leaves the
    method and nothing else has changed. *)
Theorem retrieve_news_propagates (E : env) (w : world)
    (company_name : string) (requested : option string) (e : exn) :
  news_failure E w company_name requested e →
  retrieve_news E company_name w = (after_request w requested, Raise e).
Proof.
  intros [v Hattr Hv|template e' Hattr Hfmt|url e' Hreq Hget
         |url r e' Hreq Hget Hstatus Hjson
         |url r body Hreq Hget Hstatus Hjson Hbody
         |url r body feed e' Hreq Hget Hstatus Hjson Hfeed Hiter]; simpl.
  - unfold retrieve_news. apply run_bind_raise.
    rewrite (run_bind_ok _ _ _ _ _ (getattr_lookup _ _ _ Hattr)).
    unfold lift. destruct v; try done. by destruct (Hv s).
  - unfold retrieve_news.
    rewrite (run_bind_ok _ _ w w template).
    2:{ by rewrite (run_bind_ok _ _ _ _ _ (getattr_lookup _ _ _ Hattr)). }
    apply run_bind_raise. unfold lift. by rewrite Hfmt.
  - rewrite (retrieve_news_requested E w company_name url Hreq).
    apply run_bind_raise. unfold lift. by rewrite Hget.
  - rewrite (retrieve_news_requested E w company_name url Hreq).
    run_lifted Hget. rewrite bool_decide_eq_true_2 by done.
    apply run_bind_raise. unfold lift. by rewrite Hjson.
  - rewrite (retrieve_news_requested E w company_name url Hreq).
    run_lifted Hget. rewrite bool_decide_eq_true_2 by done.
    run_lifted Hjson. apply run_bind_raise.
    unfold lift. destruct body; try done. by destruct (Hbody d).
  - rewrite (retrieve_news_requested E w company_name url Hreq).
    run_lifted Hget. rewrite bool_decide_eq_true_2 by done.
    run_lifted Hjson.
    run_next ltac:(unfold lift; simpl; by rewrite Hfeed).
    apply run_bind_raise. unfold lift. by rewrite Hiter.
Qed.

(** X13: a 200 answer whose JSON object has no [feed], or a feed with nothing in
    it, gives the empty list, like an answer that is not 200. *)
Theorem retrieve_news_without_feed (E : env) (w : world)
    (company_name url : string) (r : response)
    (body : list (string * pyval)) :
  news_request E w company_name url →
  requests_get E (PStr url) = Ok r →
  status_code r = 200 →
  json r = Ok (PDict body) →
  dict_lookup body "feed" = None
  ∨ (∃ feed, dict_lookup body "feed" = Some feed ∧ py_iter feed = Ok []) →
  retrieve_news E company_name w = ((send (GET (PStr url)) w).1, Ok []).
Proof.
  intros Hreq Hget Hstatus Hjson Hfeed.
  rewrite (retrieve_news_requested E w company_name url Hreq).
  run_lifted Hget. rewrite bool_decide_eq_true_2 by done.
  run_lifted Hjson.
  destruct Hfeed as [Hnone|(feed & Hfeed & Hiter)].
  - run_next ltac:(unfold lift; simpl; by rewrite Hnone).
    by run_next ltac:(reflexivity).
  - run_next ltac:(unfold lift; simpl; by rewrite Hfeed).
    by run_lifted Hiter.
Qed.

(** X14: whatever the environment and the outcome, [retrieve_news] leaves the
    object, standard output, the files and the identifier count as they
    are, and sends one GET at most: no retry, no other request. *)
Theorem retrieve_news_frame (E : env) (w : world) (company_name : string) :
  let w' := (retrieve_news E company_name w).1 in
  self_dict w' = self_dict w
  ∧ stdout w' = stdout w
  ∧ filesystem w' = filesystem w
  ∧ uuid_draws w' = uuid_draws w
  ∧ (sent w' = sent w ∨ ∃ url, sent w' = sent w ++ [GET (PStr url)]).
Proof.
  cbv zeta.
  assert (∀ w1 items,
            (list_comp items title_and_url w1).1 = w1) as Hitems.
  { intros w1 items.
    apply (preserves_list_comp (λ w, w = w1)); [|done].
    intros item. unfold title_and_url. preserve. }
  unfold retrieve_news, bind, getattr, lift, send, ret.
  destruct (self_dict w !! "news_endpoint") as [a|]; simpl.
  2:{ try case_decide; simpl; by repeat split; try left. }
  destruct (as_template a) as [template|]; simpl;
    [|by repeat split; try left].
  destruct (str_format E template company_name) as [url|]; simpl;
    [|by repeat split; try left].
  destruct (requests_get E (PStr url)) as [r|]; simpl;
    [|repeat split; try done; right; by eexists].
  case_bool_decide; simpl; [|repeat split; try done; right; by eexists].
  destruct (json r) as [body|]; simpl;
    [|repeat split; try done; right; by eexists].
  destruct (py_get body "feed" (PList [])) as [feed|]; simpl;
    [|repeat split; try done; right; by eexists].
  destruct (py_iter feed) as [items|]; simpl;
    [|repeat split; try done; right; by eexists].
  rewrite Hitems. simpl. repeat split; try done. right. by eexists.
Qed.

(** ** The vector store *)




Lemma point_of_mono (E : env) (n m : nat) (p : point) :
  (n ≤ m)%nat → point_of E n p → point_of E m p.
Proof. intros Hle (i & a & Hi & H). exists i, a. split; [lia|done]. Qed.






(** Steps that leave the client alone keep the store. *)
Lemma stocked_ext {A} (E : env) (m : M world A) :
  preserves quiet m →
  (∀ w, client (m w).1 = client w
        ∧ (uuid_draws w ≤ uuid_draws (m w).1)%nat) →
  preserves (stocked E) m.
Proof.
  intros Hq Hm w [Hw [Hcs Hnd Hps]]. split; [by apply Hq|].
  destruct (Hm w) as [Hcl Hle]. unfold stored_points in *.
  split; unfold stored_points; rewrite Hcl; [done|done|].
  eapply Forall_impl; [done|]. intros p. by apply point_of_mono.
Qed.

Lemma stocked_setattr_date E d :
  preserves (stocked E) (setattr "pubblication_date" (ADate d)).
Proof.
  apply stocked_ext; [auto with preserves|]. intros w. split; [|done].
  unfold client. simpl. by rewrite lookup_insert_ne.
Qed.

Lemma stocked_print E line : preserves (stocked E) (print line).
Proof. apply stocked_ext; [auto with preserves|done]. Qed.

Lemma stocked_write_file E path f :
  preserves (stocked E) (write_file path f).
Proof. apply stocked_ext; [auto with preserves|done]. Qed.

Lemma stocked_send_get E url : preserves (stocked E) (send (GET url)).
Proof. apply stocked_ext; [auto with preserves|done]. Qed.

#[global] Hint Resolve stocked_setattr_date stocked_print stocked_write_file
  stocked_send_get : preserves.
















(** ** The search *)




(** * The further properties on the sample

    Each theorem of the second part that has a premise, run on the sample
    environment or on a faulty one. *)

Lemma sample_analysis :
  analyze_positions Sample.current Sample.historical Sample.downloaded
  = (Sample.downloaded,
     Ok (filter (λ r, position_date r = Some Sample.jan10) Sample.current,
         filter (λ r, position_date r = Some Sample.jan10) Sample.historical,
         groupby_isin_agg Sample.current)).
Proof. vm_compute. reflexivity. Qed.

Lemma sample_fetched (E : env) :
  requests_get E (PStr Sample.sheet_url) = Ok Sample.sheet_response →
  read_excel_positions E = read_excel_positions Sample.env_ok →
  read_excel_date_cell E = read_excel_date_cell Sample.env_ok →
  strptime E = strptime Sample.env_ok →
  fetched E (PStr Sample.sheet_url) [Byte.x50; Byte.x4b] Sample.current
    Sample.historical Sample.jan10.
Proof.
  intros Hget Hpos Hcell Hdate. split.
  - by exists Sample.sheet_response.
  - by rewrite Hpos.
  - by rewrite Hpos.
  - exists (PStr "10/01/2024"). by rewrite Hcell, Hdate.
Qed.




(** The two ISINs of the sample, in order. *)
Lemma aggregate_keys_sorted_distinct_sample :
  Sorted string_le (agg_isin <$> groupby_isin_agg Sample.current)
  ∧ NoDup (agg_isin <$> groupby_isin_agg Sample.current).
Proof.
  destruct (aggregate_keys_sorted_distinct Sample.current Sample.historical
              Sample.downloaded Sample.downloaded _ _ _ sample_analysis)
    as (Hsorted & Hnodup & _).
  split; [exact Hsorted|exact Hnodup].
Defined.

(** The four rows of the sample are shared out between the two groups. *)
Lemma aggregate_partitions_rows_sample :
  sum_list_with (λ g, length (agg_holders g))
    (groupby_isin_agg Sample.current)
  = 4%nat.
Proof.
  destruct (aggregate_partitions_rows Sample.current Sample.historical
              Sample.downloaded Sample.downloaded _ _ _ sample_analysis)
    as (-> & _).
  reflexivity.
Defined.

(** The sheet of the sample lands in the destination directory. *)
Lemma download_file_saves_sheet_sample :
  (download_file Sample.env_ok Sample.analyzer).2
  = Ok (Sample.current, Sample.historical)
  ∧ filesystem Sample.downloaded !! "/data/pnc_consob_10-01-24.xlsx"
    = Some [Byte.x50; Byte.x4b].
Proof.
  pose proof (download_file_saves_sheet Sample.env_ok Sample.analyzer
                (PStr Sample.sheet_url) [Byte.x50; Byte.x4b] Sample.current
                Sample.historical Sample.jan10 "/data" eq_refl eq_refl
                (sample_fetched Sample.env_ok eq_refl eq_refl eq_refl eq_refl) eq_refl)
    as H.
  cbv zeta in H. destruct H as (Hreturn & Hfile & _).
  split; [exact Hreturn|exact Hfile].
Defined.

(** The destination is read-only. *)
Lemma download_file_cannot_open_sample :
  (download_file Faults.read_only Sample.analyzer).2
  = Raise (OSError "Read-only file system")
  ∧ filesystem (download_file Faults.read_only Sample.analyzer).1
    = filesystem Sample.analyzer.
Proof.
  pose proof (download_file_cannot_open Faults.read_only Sample.analyzer
                (PStr Sample.sheet_url) [Byte.x50; Byte.x4b] Sample.current
                Sample.historical Sample.jan10
                (OSError "Read-only file system") eq_refl
                (sample_fetched Faults.read_only eq_refl eq_refl eq_refl eq_refl)
                (or_intror (ex_intro _ "/data" (conj eq_refl eq_refl)))
                eq_refl) as H.
  cbv zeta in H. destruct H as (Hraise & Hfiles & _).
  split; [exact Hraise|exact Hfiles].
Defined.

(** Download, then analysis, on the sample. *)
Lemma download_then_analyze_sample :
  ((tables <- download_file Sample.env_ok ;;
    analyze_positions tables.1 tables.2) Sample.analyzer).2
  = Ok (filter (λ r, position_date r = Some Sample.jan10) Sample.current,
        filter (λ r, position_date r = Some Sample.jan10) Sample.historical,
        groupby_isin_agg Sample.current).
Proof.
  by rewrite (download_then_analyze Sample.env_ok Sample.analyzer
                (PStr Sample.sheet_url) [Byte.x50; Byte.x4b] Sample.current
                Sample.historical Sample.jan10 "/data" eq_refl eq_refl
                (sample_fetched Sample.env_ok eq_refl eq_refl eq_refl eq_refl) eq_refl).
Defined.

(** The analysis on the object as the constructor leaves it. *)
Lemma analyze_positions_before_download_sample :
  analyze_positions Sample.current Sample.historical Sample.analyzer
  = (Sample.analyzer, Raise (AttributeError "pubblication_date")).
Proof.
  exact (analyze_positions_before_download Sample.env_ok "config.yaml"
           "secrets.yaml" Sample.analyzer Sample.current Sample.historical
           sample_constructed).
Defined.

(** The regulator's site cannot be reached: the run stops after one GET. *)
Lemma execute_stops_at_failed_download_sample :
  (execute Sample.env_offline Sample.analyzer).2
  = Raise (UnboundLocalError "current")
  ∧ sent (execute Sample.env_offline Sample.analyzer).1
    = sent Sample.analyzer ++ [GET (PStr Sample.sheet_url)].
Proof.
  pose proof (execute_stops_at_failed_download Sample.env_offline
                Sample.analyzer (PStr Sample.sheet_url)
                Sample.connection_error eq_refl eq_refl
                (or_introl eq_refl)) as H.
  cbv zeta in H. destruct H as (Hraise & Hsent & _).
  split; [exact Hraise|exact Hsent].
Defined.



(** A run on the sample, where every request is answered. *)
Lemma execute_never_reports_sample :
  (∃ e, (execute Sample.env_ok Sample.analyzer).2 = Raise e)
  ∧ posts (execute Sample.env_ok Sample.analyzer).1 = [].
Proof.
  destruct (execute_never_reports Sample.env_ok Sample.analyzer
              (reach_init _ _ _ _ sample_constructed))
    as (Hraise & _ & Hposts).
  split; [exact Hraise|exact Hposts].
Defined.

(** The news endpoint cannot be reached. *)
Lemma retrieve_news_propagates_sample :
  retrieve_news Faults.news_down "AAPL" Sample.analyzer
  = ((send (GET (PStr Sample.news_url)) Sample.analyzer).1,
     Raise Sample.connection_error).
Proof.
  exact (retrieve_news_propagates Faults.news_down Sample.analyzer "AAPL"
           (Some Sample.news_url) _
           (get_raises Faults.news_down Sample.analyzer "AAPL"
              Sample.news_url Sample.connection_error
              (ex_intro _ "https://news.example/query?tickers={}"
                 (conj eq_refl eq_refl))
              eq_refl)).
Defined.

(** The news endpoint answers 200 with an object that has no feed. *)
Lemma retrieve_news_without_feed_sample :
  retrieve_news Faults.no_feed "AAPL" Sample.analyzer
  = ((send (GET (PStr Sample.news_url)) Sample.analyzer).1, Ok []).
Proof.
  exact (retrieve_news_without_feed Faults.no_feed Sample.analyzer "AAPL"
           Sample.news_url _ _
           (ex_intro _ "https://news.example/query?tickers={}"
              (conj eq_refl eq_refl))
           eq_refl eq_refl eq_refl (or_introl eq_refl)).
Defined.




